(** * steam-gc-test.js: the staged Steam / Game Coordinator probe

    A shallow embedding of [steam-gc-test.js].  The script is a set of
    event handlers run to completion by the Node event loop; they share
    three script variables ([testStartTime], [gcConnectStartTime],
    [testCompleted]) and a handful of timers.  The handlers are written
    here in a small state monad whose computations either continue or
    stop the process ([process.exit] never returns), and the event loop
    is a function dispatching one event at a time.

    Everything the script only talks to (the Steam client libraries, the
    file system, the clock) is input: events carry what the libraries
    report and the time at which they are delivered, and the record
    [Env] holds what the calls of the libraries answer, an exception
    included.  A handler runs in one instant: every [Date.now()] in it
    reads the time of its event. *)

From Stdlib Require Import ZArith String List Lia.
From stdpp Require Import base option list gmap strings pretty.

Local Open Scope Z_scope.

(** ** JavaScript values read from [config.json] *)

(** A property value of the parsed configuration, as far as the script
    can tell values apart: it tests them for truthiness and prints them
    in template literals.  A number is kept as whether it is 0 and the
    text JavaScript prints for it; arrays and objects are kept as
    [JCompound] with their text. *)
Inductive JValue : Type :=
| JNull
| JBool (b : bool)
| JNum (zero : bool) (text : string)
| JStr (s : string)
| JCompound (text : string).

(** [!v] is [negb (truthy v)]. *)
Definition truthy (v : JValue) : bool :=
  match v with
  | JNull => false
  | JBool b => b
  | JNum zero _ => negb zero
  | JStr s => negb (String.eqb s EmptyString)
  | JCompound _ => true
  end.

(** A property read gives [None] for [undefined], which is falsy. *)
Definition prop_truthy (o : option JValue) : bool :=
  match o with
  | Some v => truthy v
  | None => false
  end.

(** [`${v}`] *)
Definition to_text (v : JValue) : string :=
  match v with
  | JNull => "null"
  | JBool true => "true"
  | JBool false => "false"
  | JNum _ text => text
  | JStr s => s
  | JCompound t => t
  end.

Definition prop_text (o : option JValue) : string :=
  match o with
  | Some v => to_text v
  | None => "undefined"
  end.

(** What [JSON.parse] returned at top level. *)
Inductive JDoc : Type :=
| DocObject (fields : gmap string JValue)
| DocNull
| DocOther.   (* a number, string, boolean or array: the named
                 properties read as [undefined] *)

(** The state of [config.json] on disk. *)
Inductive ConfigFile : Type :=
| FileMissing                      (* [fs.existsSync] is false *)
| FileUnreadable (message : string) (* [readFileSync] or [JSON.parse] throws *)
| FileParsed (doc : JDoc).

(** ** The environment: answers of the libraries *)

Inductive Attempt (A : Type) : Type :=
| Returned (a : A)
| Threw (message : string).
Arguments Returned {A} a.
Arguments Threw {A} message.

(** The four members of [SteamUser.EResult] the error handler compares
    against are constants of the steam-user package. *)
Record EResultTable : Type := {
  InvalidPassword : Z;
  TwoFactorCodeMismatch : Z;
  AccountLoginDeniedNeedTwoFactor : Z;
  RateLimitExceeded : Z
}.

Record Env : Type := {
  EResult : EResultTable;
  NODE_ENV : option string;                       (* [process.env.NODE_ENV] *)
  totp_generateAuthCode : option JValue -> Attempt string; (* [SteamTotp.generateAuthCode] *)
  steam_logOff : Attempt unit;                     (* [steamClient.logOff()] *)
  new_SteamID : option JValue -> Attempt unit      (* [new SteamID(...)] *)
}.

(** The values steam-user gives the four codes. *)
Definition steam_user_EResult : EResultTable :=
  {| InvalidPassword := 5;
     TwoFactorCodeMismatch := 88;
     AccountLoginDeniedNeedTwoFactor := 85;
     RateLimitExceeded := 84 |}.

(** ** Timers, effects and the world *)

(** The callbacks handed to [setTimeout], one constructor per arrow
    function of the script; [ExitCb] is the closure of [completeTest]
    and holds the [result] it captured. *)
Inductive TimerCb : Type :=
| GlobalTimeoutCb
| GcTimeoutCb
| RequestTimeoutCb
| ExitCb (result : string).

Record Timer : Type := { deadline : Z; callback : TimerCb }.

Inductive ClientCall : Type :=
| LogOn (accountName password twoFactorCode : string)
| SetPersonaOnline
| GamesPlayed (appids : list Z)
| LogOff
| RequestPlayersProfile (steamid : string).

(** What the process does to the outside, in a trace. *)
Inductive Effect : Type :=
| Log (line : string)
| SetTimeout (id : nat) (delay : Z)
| ClearTimeout (id : nat)
| Client (c : ClientCall)
| Uncaught (message : string).   (* an exception no handler catches *)

Record World : Type := {
  env : Env;
  (* script constants and variables *)
  config : gmap string JValue;
  testStartTime : Z;
  gcConnectStartTime : option Z;   (* [null] or a timestamp *)
  testCompleted : bool;
  testTimeout : nat;               (* handle of the 5 minute timer *)
  (* run time *)
  now : Z;                         (* [Date.now()] *)
  timers : gmap nat Timer;         (* the armed timers *)
  next_timer : nat;
  requests : gmap nat Z;           (* pending profile callbacks: the
                                      [requestTimeout] handle each one
                                      captured, with [requestStartTime] *)
  trace : list Effect              (* newest first *)
}.

Definition initial_world (e : Env) (t0 : Z) : World :=
  {| env := e; config := ∅; testStartTime := 0; gcConnectStartTime := None;
     testCompleted := false; testTimeout := 0%nat; now := t0; timers := ∅;
     next_timer := 0%nat; requests := ∅; trace := [] |}.

Definition with_config (c : gmap string JValue) (w : World) : World :=
  {| env := env w; config := c; testStartTime := testStartTime w;
     gcConnectStartTime := gcConnectStartTime w;
     testCompleted := testCompleted w; testTimeout := testTimeout w;
     now := now w; timers := timers w; next_timer := next_timer w;
     requests := requests w; trace := trace w |}.

Definition with_testStartTime (t : Z) (w : World) : World :=
  {| env := env w; config := config w; testStartTime := t;
     gcConnectStartTime := gcConnectStartTime w;
     testCompleted := testCompleted w; testTimeout := testTimeout w;
     now := now w; timers := timers w; next_timer := next_timer w;
     requests := requests w; trace := trace w |}.

Definition with_gcConnectStartTime (t : option Z) (w : World) : World :=
  {| env := env w; config := config w; testStartTime := testStartTime w;
     gcConnectStartTime := t;
     testCompleted := testCompleted w; testTimeout := testTimeout w;
     now := now w; timers := timers w; next_timer := next_timer w;
     requests := requests w; trace := trace w |}.

Definition with_testCompleted (b : bool) (w : World) : World :=
  {| env := env w; config := config w; testStartTime := testStartTime w;
     gcConnectStartTime := gcConnectStartTime w;
     testCompleted := b; testTimeout := testTimeout w;
     now := now w; timers := timers w; next_timer := next_timer w;
     requests := requests w; trace := trace w |}.

Definition with_testTimeout (id : nat) (w : World) : World :=
  {| env := env w; config := config w; testStartTime := testStartTime w;
     gcConnectStartTime := gcConnectStartTime w;
     testCompleted := testCompleted w; testTimeout := id;
     now := now w; timers := timers w; next_timer := next_timer w;
     requests := requests w; trace := trace w |}.

Definition with_now (t : Z) (w : World) : World :=
  {| env := env w; config := config w; testStartTime := testStartTime w;
     gcConnectStartTime := gcConnectStartTime w;
     testCompleted := testCompleted w; testTimeout := testTimeout w;
     now := t; timers := timers w; next_timer := next_timer w;
     requests := requests w; trace := trace w |}.

Definition with_timers (ts : gmap nat Timer) (n : nat) (w : World) : World :=
  {| env := env w; config := config w; testStartTime := testStartTime w;
     gcConnectStartTime := gcConnectStartTime w;
     testCompleted := testCompleted w; testTimeout := testTimeout w;
     now := now w; timers := ts; next_timer := n;
     requests := requests w; trace := trace w |}.

Definition with_requests (rs : gmap nat Z) (w : World) : World :=
  {| env := env w; config := config w; testStartTime := testStartTime w;
     gcConnectStartTime := gcConnectStartTime w;
     testCompleted := testCompleted w; testTimeout := testTimeout w;
     now := now w; timers := timers w; next_timer := next_timer w;
     requests := rs; trace := trace w |}.

Definition with_trace (tr : list Effect) (w : World) : World :=
  {| env := env w; config := config w; testStartTime := testStartTime w;
     gcConnectStartTime := gcConnectStartTime w;
     testCompleted := testCompleted w; testTimeout := testTimeout w;
     now := now w; timers := timers w; next_timer := next_timer w;
     requests := requests w; trace := tr |}.

(** ** The monad of handlers

    A handler either runs to its end ([Continue]) or stops the process
    with an exit code ([Halt]); what follows a [process.exit] is not
    run. *)

Inductive Outcome (A : Type) : Type :=
| Continue (a : A) (w : World)
| Halt (code : Z) (w : World).
Arguments Continue {A} a w.
Arguments Halt {A} code w.

Definition M (A : Type) : Type := World -> Outcome A.

Definition ret {A : Type} (a : A) : M A := fun w => Continue a w.

Definition bind {A B : Type} (m : M A) (k : A -> M B) : M B :=
  fun w =>
    match m w with
    | Continue a w' => k a w'
    | Halt code w' => Halt code w'
    end.

Declare Scope js_scope.
Delimit Scope js_scope with js.
Notation "x <- m ; k" := (bind m (fun x => k))
  (at level 100, m at next level, right associativity) : js_scope.
Notation "m ;; k" := (bind m (fun _ => k))
  (at level 100, right associativity) : js_scope.
Local Open Scope js_scope.

Definition get {A : Type} (f : World -> A) : M A := fun w => Continue (f w) w.
Definition modify (f : World -> World) : M unit := fun w => Continue tt (f w).

Definition process_exit {A : Type} (code : Z) : M A := fun w => Halt code w.

Definition emit (e : Effect) : M unit :=
  modify (fun w => with_trace (e :: trace w) w).

Definition console_log (line : string) : M unit := emit (Log line).

(** An exception thrown in a handler and caught nowhere: Node reports it
    and ends the process with code 1. *)
Definition uncaught {A : Type} (message : string) : M A :=
  fun w => Halt 1 (with_trace (Uncaught message :: trace w) w).

(** [setTimeout(cb, delay)]: the timer is due [delay] after the instant
    of the call; the handle is fresh. *)
Definition setTimeout (cb : TimerCb) (delay : Z) : M nat :=
  fun w =>
    let id := next_timer w in
    let tm := {| deadline := now w + delay; callback := cb |} in
    Continue id
      (with_trace (SetTimeout id delay :: trace w)
         (with_timers (<[id := tm]> (timers w)) (S id) w)).

(** [clearTimeout(id)]: disarms; nothing happens for a timer that has
    fired or was cleared. *)
Definition clearTimeout (id : nat) : M unit :=
  fun w =>
    Continue tt
      (with_trace (ClearTimeout id :: trace w)
         (with_timers (delete id (timers w)) (next_timer w) w)).

(** ** Text helpers *)

Definition dq : string := String (Ascii.ascii_of_nat 34) EmptyString.
Definition nl : string := String (Ascii.ascii_of_nat 10) EmptyString.

Definition json_member (key value : string) : string :=
  "  " +:+ dq +:+ key +:+ dq +:+ ": " +:+ dq +:+ value +:+ dq.

(** [JSON.stringify({...}, null, 2)] of the sample configuration. *)
Definition config_template : string :=
  "{" +:+ nl
  +:+ json_member "steam_username" "your_steam_username" +:+ "," +:+ nl
  +:+ json_member "steam_password" "your_steam_password" +:+ "," +:+ nl
  +:+ json_member "shared_secret" "your_shared_secret_from_mafile" +:+ "," +:+ nl
  +:+ json_member "test_steam_id" "76561199556731347" +:+ nl
  +:+ "}".

(** [s || fallback] on an optional string. *)
Definition or_else (o : option string) (fallback : string) : string :=
  match o with
  | Some s => if String.eqb s EmptyString then fallback else s
  | None => fallback
  end.

(** ** loadConfig *)

Definition required : list string :=
  ["steam_username"; "steam_password"; "shared_secret"].

(** The [for] loop over [required]. *)
Fixpoint check_required (fields : list string) (cfg : gmap string JValue)
  : M unit :=
  match fields with
  | [] => ret tt
  | field :: rest =>
      if prop_truthy (cfg !! field) then check_required rest cfg
      else
        console_log ("❌ Missing required field in config.json: " +:+ field) ;;
        process_exit 1
  end.

Definition default_test_steam_id : string := "76561199556731347".

(** The message of the [TypeError] V8 throws for [null[field]]. *)
Definition null_read_message : string :=
  "Cannot read properties of null (reading 'steam_username')".

Definition loadConfig (file : ConfigFile) : M (gmap string JValue) :=
  match file with
  | FileMissing =>
      console_log "❌ config.json not found!" ;;
      console_log "📋 Please create config.json with the following structure:" ;;
      console_log config_template ;;
      process_exit 1
  | FileUnreadable message =>
      console_log ("❌ Error reading config.json: " +:+ message) ;;
      process_exit 1
  | FileParsed DocNull =>
      console_log ("❌ Error reading config.json: " +:+ null_read_message) ;;
      process_exit 1
  | FileParsed DocOther =>
      (* every named property reads as [undefined] *)
      check_required required ∅ ;;
      ret (<["test_steam_id" := JStr default_test_steam_id]> ∅)
  | FileParsed (DocObject cfg) =>
      check_required required cfg ;;
      if prop_truthy (cfg !! "test_steam_id") then ret cfg
      else ret (<["test_steam_id" := JStr default_test_steam_id]> cfg)
  end.

(** ** generateAuthCode *)

Definition generateAuthCode : M string :=
  e <- get env ;
  SHARED_SECRET <- get (fun w => config w !! "shared_secret") ;
  match totp_generateAuthCode e SHARED_SECRET with
  | Returned authCode =>
      console_log ("✅ Generated 2FA code: " +:+ authCode) ;;
      ret authCode
  | Threw message =>
      console_log ("❌ Failed to generate 2FA code: " +:+ message) ;;
      console_log "🔍 Check your SHARED_SECRET value" ;;
      process_exit 1
  end.

(** ** completeTest *)

Definition completed_banner : string := "🏁 TEST COMPLETED".

Definition completeTest (result : string) : M unit :=
  completed <- get testCompleted ;
  if completed then ret tt
  else
    modify (with_testCompleted true) ;;
    global <- get testTimeout ;
    clearTimeout global ;;
    totalDuration <- get (fun w => now w - testStartTime w) ;
    console_log EmptyString ;;
    console_log completed_banner ;;
    console_log "📊 Results:" ;;
    console_log ("   - Result: " +:+ result) ;;
    console_log ("   - Total Duration: " +:+ pretty totalDuration +:+ "ms") ;;
    console_log "   - Steam Login: ✅ Success" ;;
    console_log ("   - GC Connection: " +:+
                 (if String.eqb result "TIMEOUT" then "❌ Failed/Banned"
                  else "✅ Success")) ;;
    console_log ("   - Profile Request: " +:+
                 (if String.eqb result "SUCCESS" then "✅ Success"
                  else "❌ Failed")) ;;
    (if String.eqb result "SUCCESS" then
       console_log EmptyString ;;
       console_log "🎉 ALL TESTS PASSED!" ;;
       console_log "✅ Account is NOT banned" ;;
       console_log "✅ IP/Hardware is NOT banned" ;;
       console_log "✅ GC connection is working" ;;
       console_log "🔍 The issue in your main service might be elsewhere"
     else if String.eqb result "TIMEOUT" then
       console_log EmptyString ;;
       console_log "🚫 SOFT BAN DETECTED" ;;
       console_log "❌ GC is not responding to requests" ;;
       console_log "🔍 This could be:" ;;
       console_log "   - Account-level soft ban" ;;
       console_log "   - IP/Hardware-level soft ban" ;;
       console_log "   - If this test passes on Render.com but fails locally," ;;
       console_log "     then it's likely IP/Hardware ban on your local setup"
     else ret tt) ;;
    e <- get env ;
    emit (Client LogOff) ;;
    match steam_logOff e with
    | Returned _ => console_log "👋 Logged off Steam"
    | Threw message => console_log ("⚠️ Logout error: " +:+ message)
    end ;;
    setTimeout (ExitCb result) 1000 ;;
    ret tt.

(** ** Steam client handlers *)

(** The diagnosis line chosen by the [if] chain of the ['error']
    handler. *)
Definition diagnosis (E : EResultTable) (eresult : Z) : string :=
  if eresult =? InvalidPassword E then
    "   - Diagnosis: Invalid credentials"
  else if eresult =? TwoFactorCodeMismatch E then
    "   - Diagnosis: 2FA code mismatch"
  else if eresult =? AccountLoginDeniedNeedTwoFactor E then
    "   - Diagnosis: 2FA required but not provided correctly"
  else if eresult =? RateLimitExceeded E then
    "   - Diagnosis: Login rate limited"
  else
    "   - Diagnosis: Unknown error (" +:+ pretty eresult +:+ ")".

Definition on_error (message : string) (eresult : Z) : M unit :=
  console_log ("❌ Steam Error: " +:+ message) ;;
  console_log "🔍 Error Details:" ;;
  console_log ("   - EResult: " +:+ pretty eresult) ;;
  e <- get env ;
  console_log (diagnosis (EResult e) eresult) ;;
  process_exit 1.

Definition on_loggedOn (steamID64 : string) (accountName : option string)
  : M unit :=
  loginDuration <- get (fun w => now w - testStartTime w) ;
  console_log ("✅ Steam Login Successful! (" +:+ pretty loginDuration +:+ "ms)") ;;
  console_log "📊 Account Info:" ;;
  console_log ("   - Steam ID: " +:+ steamID64) ;;
  console_log ("   - Account Name: " +:+ or_else accountName "Unknown") ;;
  emit (Client SetPersonaOnline) ;;
  console_log "🎮 Launching CS2..." ;;
  t <- get now ;
  modify (with_gcConnectStartTime (Some t)) ;;
  emit (Client (GamesPlayed [730])).

Definition on_disconnected (eresult : Z) (msg : string) : M unit :=
  console_log ("⚠️ Steam Disconnected: " +:+ pretty eresult +:+ " - " +:+ msg) ;;
  completed <- get testCompleted ;
  if negb completed then
    console_log "🔍 Unexpected disconnection during test" ;;
    process_exit 1
  else ret tt.

(** ** testProfileRequest and its two callbacks *)

Record Profile : Type := {
  account_id : Z;
  display_items_defidx : option (list Z);  (* [medals?.display_items_defidx] *)
  commendation : option string;            (* its JSON text, when truthy *)
  player_level : Z
}.

Definition request_timeout_cb : M unit :=
  console_log "❌ Profile Request Timeout (30s)" ;;
  console_log "🔍 Possible causes:" ;;
  console_log "   - GC is throttling requests (soft ban)" ;;
  console_log "   - Steam ID is invalid" ;;
  console_log "   - Network issues" ;;
  completeTest "TIMEOUT".

Definition profile_callback (requestTimeout : nat) (requestStartTime : Z)
  (profile : option Profile) : M unit :=
  clearTimeout requestTimeout ;;
  requestDuration <- get (fun w => now w - requestStartTime) ;
  match profile with
  | Some p =>
      console_log ("✅ Profile Request Successful! (" +:+ pretty requestDuration +:+ "ms)") ;;
      console_log "📊 Profile Data:" ;;
      console_log ("   - Account ID: " +:+ pretty (account_id p)) ;;
      console_log ("   - Total Medals: " +:+
                   pretty (match display_items_defidx p with
                           | Some items => Z.of_nat (length items)
                           | None => 0
                           end)) ;;
      console_log ("   - Commendations: " +:+
                   match commendation p with
                   | Some json => json
                   | None => "{}"
                   end) ;;
      console_log ("   - Level: " +:+
                   (if player_level p =? 0 then "Unknown"
                    else pretty (player_level p))) ;;
      completeTest "SUCCESS"
  | None =>
      console_log "❌ Profile Request Failed - No data received" ;;
      completeTest "NO_DATA"
  end.

(** [new SteamID(TEST_STEAM_ID)] comes first; when the constructor
    throws, nothing catches the exception, and neither the timer nor the
    request is made. *)
Definition testProfileRequest : M unit :=
  e <- get env ;
  TEST_STEAM_ID <- get (fun w => config w !! "test_steam_id") ;
  match new_SteamID e TEST_STEAM_ID with
  | Threw message => uncaught message
  | Returned _ =>
      requestStartTime <- get now ;
      requestTimeout <- setTimeout RequestTimeoutCb 30000 ;
      emit (Client (RequestPlayersProfile (prop_text TEST_STEAM_ID))) ;;
      modify (fun w =>
                with_requests
                  (<[requestTimeout := requestStartTime]> (requests w)) w)
  end.

(** ** Game Coordinator handlers *)

(** [Date.now() - gcConnectStartTime], where [null] counts as 0. *)
Definition on_connectedToGC : M unit :=
  gcConnectDuration <- get (fun w => now w - default 0 (gcConnectStartTime w)) ;
  console_log ("✅ GC Connection Successful! (" +:+ pretty gcConnectDuration +:+ "ms)") ;;
  console_log "🔥 NO SOFT BAN DETECTED - Account and IP/hardware are clean" ;;
  console_log EmptyString ;;
  TEST_STEAM_ID <- get (fun w => prop_text (config w !! "test_steam_id")) ;
  console_log ("🔍 Testing profile request for " +:+ TEST_STEAM_ID +:+ "...") ;;
  testProfileRequest.

Definition on_disconnectedFromGC (reason : Z) : M unit :=
  console_log ("❌ GC Disconnected: " +:+ pretty reason) ;;
  completed <- get testCompleted ;
  if negb completed then
    console_log "🔍 This may indicate a soft ban or connection issue" ;;
    process_exit 1
  else ret tt.

(** ** Timer callbacks set at top level, and the signal handlers *)

Definition global_timeout_cb : M unit :=
  completed <- get testCompleted ;
  if negb completed then
    console_log "❌ TEST TIMEOUT AFTER 5 MINUTES" ;;
    console_log "🔍 Possible causes:" ;;
    console_log "   - Steam login issues" ;;
    console_log "   - GC connection soft ban" ;;
    console_log "   - Network connectivity problems" ;;
    process_exit 1
  else ret tt.

(** A timestamp is truthy unless it is 0; [null] is falsy. *)
Definition time_truthy (t : option Z) : bool :=
  match t with
  | Some n => negb (n =? 0)
  | None => false
  end.

Definition gc_timeout_cb : M unit :=
  completed <- get testCompleted ;
  started <- get gcConnectStartTime ;
  if negb completed && time_truthy started then
    console_log "❌ GC Connection Timeout (2 minutes)" ;;
    console_log "🚫 SOFT BAN LIKELY DETECTED" ;;
    console_log "🔍 GC is not accepting connections within reasonable time" ;;
    completeTest "GC_TIMEOUT"
  else ret tt.

Definition exit_cb (result : string) : M unit :=
  process_exit (if String.eqb result "SUCCESS" then 0 else 1).

Definition on_SIGINT : M unit :=
  console_log (nl +:+ "🛑 Test interrupted by user") ;;
  completeTest "INTERRUPTED".

Definition on_SIGTERM : M unit :=
  console_log (nl +:+ "🛑 Test terminated") ;;
  completeTest "TERMINATED".

(** ** startTest and the top-level script *)

Definition startTest : M unit :=
  console_log "🔐 Generating 2FA code..." ;;
  authCode <- generateAuthCode ;
  console_log "🔑 Attempting Steam login..." ;;
  STEAM_USERNAME <- get (fun w => prop_text (config w !! "steam_username")) ;
  STEAM_PASSWORD <- get (fun w => prop_text (config w !! "steam_password")) ;
  emit (Client (LogOn STEAM_USERNAME STEAM_PASSWORD authCode)).

(** The statements of the script in their order: configuration, the
    banner, the state variables, the 5 minute timer, the 2 minute timer,
    [startTest()].  Registering the handlers has no effect of its own;
    they are what [handle] dispatches to. *)
Definition script (file : ConfigFile) : M unit :=
  cfg <- loadConfig file ;
  modify (with_config cfg) ;;
  console_log "🚀 Steam GC Connection Test Starting..." ;;
  console_log "📊 Test Parameters:" ;;
  console_log ("   - Account: " +:+ prop_text (cfg !! "steam_username")) ;;
  console_log ("   - Test Steam ID: " +:+ prop_text (cfg !! "test_steam_id")) ;;
  e <- get env ;
  console_log ("   - Environment: " +:+ or_else (NODE_ENV e) "development") ;;
  console_log EmptyString ;;
  t <- get now ;
  modify (with_testStartTime t) ;;
  modify (with_gcConnectStartTime None) ;;
  modify (with_testCompleted false) ;;
  global <- setTimeout GlobalTimeoutCb 300000 ;
  modify (with_testTimeout global) ;;
  setTimeout GcTimeoutCb 120000 ;;
  startTest.

Definition boot (e : Env) (t0 : Z) (file : ConfigFile) : Outcome unit :=
  script file (initial_world e t0).

(** ** The event loop *)

Inductive Event : Type :=
| SteamError (message : string) (eresult : Z)
| LoggedOn (steamID64 : string) (accountName : option string)
| Disconnected (eresult : Z) (msg : string)
| ConnectedToGC
| DisconnectedFromGC (reason : Z)
| ProfileResponse (request : nat) (profile : option Profile)
| TimerDue (id : nat)
| SIGINT
| SIGTERM.

Definition run_callback (cb : TimerCb) : M unit :=
  match cb with
  | GlobalTimeoutCb => global_timeout_cb
  | GcTimeoutCb => gc_timeout_cb
  | RequestTimeoutCb => request_timeout_cb
  | ExitCb result => exit_cb result
  end.

Definition disarm (id : nat) (w : World) : World :=
  with_timers (delete id (timers w)) (next_timer w) w.

(** A timer runs its callback once, not before it is due; an event for
    a timer that is not armed or not yet due is not delivered. *)
Definition fire (id : nat) : M unit :=
  armed <- get (fun w => timers w !! id) ;
  t <- get now ;
  match armed with
  | Some tm =>
      if deadline tm <=? t then
        modify (disarm id) ;;
        run_callback (callback tm)
      else ret tt
  | None => ret tt
  end.

(** The callback given to [requestPlayersProfile] is called at most
    once. *)
Definition respond (request : nat) (profile : option Profile) : M unit :=
  pending <- get (fun w => requests w !! request) ;
  match pending with
  | Some requestStartTime =>
      modify (fun w => with_requests (delete request (requests w)) w) ;;
      profile_callback request requestStartTime profile
  | None => ret tt
  end.

Definition handle (ev : Event) : M unit :=
  match ev with
  | SteamError message eresult => on_error message eresult
  | LoggedOn steamID64 accountName => on_loggedOn steamID64 accountName
  | Disconnected eresult msg => on_disconnected eresult msg
  | ConnectedToGC => on_connectedToGC
  | DisconnectedFromGC reason => on_disconnectedFromGC reason
  | ProfileResponse request profile => respond request profile
  | TimerDue id => fire id
  | SIGINT => on_SIGINT
  | SIGTERM => on_SIGTERM
  end.

(** One turn of the loop at time [t]; the clock does not go back, and a
    process that has exited handles nothing. *)
Definition dispatch (t : Z) (ev : Event) (p : Outcome unit) : Outcome unit :=
  match p with
  | Continue _ w => handle ev (with_now (Z.max (now w) t) w)
  | Halt code w => Halt code w
  end.

Fixpoint run (evs : list (Z * Event)) (p : Outcome unit) : Outcome unit :=
  match evs with
  | [] => p
  | (t, ev) :: rest => run rest (dispatch t ev p)
  end.

(** ** Observations on a world *)

Definition is_banner (e : Effect) : bool :=
  match e with
  | Log line => String.eqb line completed_banner
  | _ => false
  end.

(** How many times the completion report was started. *)
Definition reports (w : World) : nat := length (List.filter is_banner (trace w)).

Definition is_logoff (e : Effect) : bool :=
  match e with
  | Client LogOff => true
  | _ => false
  end.

Definition logoffs (w : World) : nat := length (List.filter is_logoff (trace w)).

(** A sequence of calls of [completeTest]. *)
Fixpoint complete_all (results : list string) : M unit :=
  match results with
  | [] => ret tt
  | r :: rest => completeTest r ;; complete_all rest
  end.

(** ** A sample run *)

Definition sample_env : Env :=
  {| EResult := steam_user_EResult;
     NODE_ENV := None;
     totp_generateAuthCode := fun _ => Returned "ABCDE";
     steam_logOff := Returned tt;
     new_SteamID := fun _ => Returned tt |}.

Definition sample_config : gmap string JValue :=
  <["steam_username" := JStr "alice"]>
    (<["steam_password" := JStr "hunter2"]>
       (<["shared_secret" := JStr "c2VjcmV0"]> ∅)).

Definition world_of (p : Outcome unit) : World :=
  match p with
  | Continue _ w => w
  | Halt _ w => w
  end.

Definition exit_code (p : Outcome unit) : option Z :=
  match p with
  | Continue _ _ => None
  | Halt code _ => Some code
  end.

(** The process started at time 0 with [sample_config]. *)
Definition booted : World :=
  world_of (boot sample_env 0 (FileParsed (DocObject sample_config))).

(** The world in the middle of the profile request: logged on at 50,
    Game Coordinator connected at 350. *)
Definition probing : World :=
  world_of (run [(50, LoggedOn "76561198000000001" (Some "alice"));
                 (350, ConnectedToGC)]
              (Continue tt booted)).

Definition sample_profile : Profile :=
  {| account_id := 40265733; display_items_defidx := Some [874; 1331];
     commendation := None; player_level := 12 |}.

(** The diagnosis as the specification words it: invalid credentials,
    rate limit, and the catch-all with the raw code for every other
    cause. *)
Definition claimed_diagnosis (E : EResultTable) (eresult : Z) : string :=
  if eresult =? InvalidPassword E then
    "   - Diagnosis: Invalid credentials"
  else if eresult =? RateLimitExceeded E then
    "   - Diagnosis: Login rate limited"
  else
    "   - Diagnosis: Unknown error (" +:+ pretty eresult +:+ ")".

(** The four values the specification names. *)
Definition named_values : list string :=
  ["steam_username"; "steam_password"; "shared_secret"; "test_steam_id"].

(** Each of the four named values is required at startup. *)
Definition all_named_values_required : Prop :=
  forall (e : Env) (t0 : Z) (cfg : gmap string JValue) (field : string),
    In field named_values ->
    prop_truthy (cfg !! field) = false ->
    exists w', boot e t0 (FileParsed (DocObject cfg)) = Halt 1 w'.

Definition is_object (file : ConfigFile) : bool :=
  match file with
  | FileParsed (DocObject _) => true
  | _ => false
  end.

(** The result a profile callback hands to [completeTest]. *)
Definition result_of_payload (profile : option Profile) : string :=
  match profile with
  | Some _ => "SUCCESS"
  | None => "NO_DATA"
  end.

(** The process logged on 100 seconds after its start. *)
Definition late_login : World :=
  world_of (dispatch 100000 (LoggedOn "76561198000000001" (Some "alice"))
              (Continue tt booted)).

(** ** Properties of worlds and handlers *)

(** What a first call leaves behind. *)
Record finalized_by (r : string) (w w1 : World) : Prop := {
  fin_flag : testCompleted w1 = true;
  fin_timers :
    timers w1 =
    <[next_timer w := {| deadline := now w + 1000; callback := ExitCb r |}]>
      (delete (testTimeout w) (timers w));
  fin_next : next_timer w1 = S (next_timer w);
  fin_reports : reports w1 = S (reports w);
  fin_logoffs : logoffs w1 = S (logoffs w);
  fin_trace :
    exists added,
      trace w1 = added ++ trace w /\
      In (ClearTimeout (testTimeout w)) added /\
      In (Log completed_banner) added /\
      In (Log ("   - Result: " +:+ r)) added /\
      In (Client LogOff) added /\
      (String.eqb r "SUCCESS" = false -> String.eqb r "TIMEOUT" = true ->
       In (Log "🚫 SOFT BAN DETECTED") added);
  fin_env : env w1 = env w;
  fin_config : config w1 = config w;
  fin_start : testStartTime w1 = testStartTime w;
  fin_gc : gcConnectStartTime w1 = gcConnectStartTime w;
  fin_handle : testTimeout w1 = testTimeout w;
  fin_now : now w1 = now w;
  fin_requests : requests w1 = requests w
}.

(** The signals of the collaborators that end a run: a Steam error, a
    Steam disconnect, a Game Coordinator disconnect, and the 5 minute
    timer coming due. *)
Inductive terminal_signal (w : World) (t : Z) : Event -> Prop :=
| signal_error (message : string) (eresult : Z) :
    terminal_signal w t (SteamError message eresult)
| signal_disconnected (eresult : Z) (msg : string) :
    terminal_signal w t (Disconnected eresult msg)
| signal_gc_disconnected (reason : Z) :
    terminal_signal w t (DisconnectedFromGC reason)
| signal_global_timeout (id : nat) (d : Z) :
    timers w !! id = Some {| deadline := d; callback := GlobalTimeoutCb |} ->
    d <= Z.max (now w) t ->
    terminal_signal w t (TimerDue id).

(** An event goes through the gate when its handler returns with the run
    finalized, the exit left to the timer [completeTest] arms. *)
Definition passes_gate (t : Z) (ev : Event) (w : World) : Prop :=
  exists w1,
    dispatch t ev (Continue tt w) = Continue tt w1 /\ testCompleted w1 = true.

(** Every terminal signal of a collaborator goes through the gate. *)
Definition every_terminal_signal_passes_gate : Prop :=
  forall (w : World) (t : Z) (ev : Event),
    testCompleted w = false -> terminal_signal w t ev -> passes_gate t ev w.

(** The call [completeTest r] leaves none of the timers armed that were
    armed before it. *)
Definition cancels_every_armed_timer (r : string) (w : World) : Prop :=
  forall w1,
    completeTest r w = Continue tt w1 ->
    forall id tm, timers w !! id = Some tm -> timers w1 !! id = None.

(** Where a handler can stop the process, and with what code. *)
Definition exits_only_with {A : Type} (code : Z) (m : M A) : Prop :=
  forall w c w', m w = Halt c w' -> c = code.

(** The handler's diagnosis is the one of [claimed_diagnosis]. *)
Definition diagnosis_follows_claim (E : EResultTable) : Prop :=
  forall eresult, diagnosis E eresult = claimed_diagnosis E eresult.

(** One report when the run is finalized, none before. *)
Definition report_matches_flag (w : World) : Prop :=
  reports w = if testCompleted w then 1%nat else 0%nat.

(** The run is finalized and has printed [n] reports. *)
Definition finalized_with (n : nat) (w : World) : Prop :=
  testCompleted w = true /\ reports w = n.

(** No report yet, and the run is not finalized. *)
Definition not_started (w : World) : Prop :=
  reports w = 0%nat /\ testCompleted w = false.

(** [m] keeps [I], whether it returns or stops the process. *)
Definition keeps {A : Type} (I : World -> Prop) (m : M A) : Prop :=
  forall w, I w ->
    match m w with
    | Continue _ w1 => I w1
    | Halt _ w1 => I w1
    end.

(** A step from [w] to [w1] that is not a finalization: the flag and
    the number of reports are as before, the trace has only grown, and
    no exit timer was armed. *)
Definition calm (w w1 : World) : Prop :=
  testCompleted w1 = testCompleted w /\
  reports w1 = reports w /\
  (exists added, trace w1 = added ++ trace w) /\
  (forall id d r,
     timers w1 !! id = Some {| deadline := d; callback := ExitCb r |} ->
     timers w !! id = Some {| deadline := d; callback := ExitCb r |}).

(** An update that is a calm step. *)
Definition quiet (f : World -> World) : Prop := forall w, calm w (f w).

(** A property of worlds that calm steps keep. *)
Definition respects (I : World -> Prop) : Prop :=
  forall w w1, calm w w1 -> I w -> I w1.

(** No exit timer is armed. *)
Definition no_exit_timer (w : World) : Prop :=
  forall id d r,
    timers w !! id <> Some {| deadline := d; callback := ExitCb r |}.

(** Every armed exit timer holds the result of the run's finalization,
    which the report shows. *)
Definition exit_timers_recorded (w : World) : Prop :=
  forall id d r,
    timers w !! id = Some {| deadline := d; callback := ExitCb r |} ->
    testCompleted w = true /\ In (Log ("   - Result: " +:+ r)) (trace w).

(** ** Startup and the report, for the properties beyond the claims *)

(** [config.json] holds an object in which the three required fields
    are truthy. *)
Definition valid_config (file : ConfigFile) (cfg : gmap string JValue) : Prop :=
  file = FileParsed (DocObject cfg) /\
  forall f, In f required -> prop_truthy (cfg !! f) = true.

(** The configuration [loadConfig] returns for the object [cfg]. *)
Definition loaded (cfg : gmap string JValue) : gmap string JValue :=
  if prop_truthy (cfg !! "test_steam_id") then cfg
  else <["test_steam_id" := JStr default_test_steam_id]> cfg.

(** What the script prints before it arms its timers. *)
Definition banner_lines (e : Env) (cfg : gmap string JValue) : list Effect :=
  [Log EmptyString;
   Log ("   - Environment: " +:+ or_else (NODE_ENV e) "development");
   Log ("   - Test Steam ID: " +:+ prop_text (cfg !! "test_steam_id"));
   Log ("   - Account: " +:+ prop_text (cfg !! "steam_username"));
   Log "📊 Test Parameters:";
   Log "🚀 Steam GC Connection Test Starting..."].

(** The two timers of the top level, armed at [t0]. *)
Definition startup_timers (t0 : Z) : gmap nat Timer :=
  <[1%nat := {| deadline := t0 + 120000; callback := GcTimeoutCb |}]>
    (<[0%nat := {| deadline := t0 + 300000; callback := GlobalTimeoutCb |}]> ∅).

(** The world the script leaves when it started at [t0] with the loaded
    configuration [cfg] and the two-factor code [code]. *)
Record started (e : Env) (t0 : Z) (cfg : gmap string JValue) (code : string)
  (w : World) : Prop := {
  st_env : env w = e;
  st_config : config w = cfg;
  st_start : testStartTime w = t0;
  st_now : now w = t0;
  st_gc : gcConnectStartTime w = None;
  st_flag : testCompleted w = false;
  st_handle : testTimeout w = 0%nat;
  st_timers : timers w = startup_timers t0;
  st_next : next_timer w = 2%nat;
  st_requests : requests w = ∅;
  st_trace :
    trace w =
      Client (LogOn (prop_text (cfg !! "steam_username"))
                (prop_text (cfg !! "steam_password")) code)
      :: Log "🔑 Attempting Steam login..."
      :: Log ("✅ Generated 2FA code: " +:+ code)
      :: Log "🔐 Generating 2FA code..."
      :: SetTimeout 1 120000 :: SetTimeout 0 300000
      :: banner_lines e cfg
}.

Definition is_client (e : Effect) : bool :=
  match e with
  | Client _ => true
  | _ => false
  end.

(** Whether [line] is among the lines printed in [es]. *)
Definition shows (line : string) (es : list Effect) : bool :=
  existsb (fun e => match e with
                    | Log l => String.eqb l line
                    | _ => false
                    end) es.

(** The world an outcome carries, whether the handler returned or
    stopped the process. *)
Definition outcome_world {A : Type} (o : Outcome A) : World :=
  match o with
  | Continue _ w => w
  | Halt _ w => w
  end.

(** From [w] to [w1] the environment, the configuration, the start time
    and the handle of the 5 minute timer are the same, the trace has
    only grown, a finalized run is still finalized, and no timer handle
    was given back. *)
Record settled (w w1 : World) : Prop := {
  keep_env : env w1 = env w;
  keep_config : config w1 = config w;
  keep_start : testStartTime w1 = testStartTime w;
  keep_handle : testTimeout w1 = testTimeout w;
  keep_trace : exists added, trace w1 = added ++ trace w;
  keep_flag : testCompleted w = true -> testCompleted w1 = true;
  keep_next : (next_timer w <= next_timer w1)%nat
}.

(** Every step of [m] is [settled]. *)
Definition settles {A : Type} (m : M A) : Prop :=
  forall w, settled w (outcome_world (m w)).

(** The exit code is 0 exactly when the report of the run shows the
    result [SUCCESS]. *)
Definition exit_code_matches_verdict : Prop :=
  forall (e : Env) (t0 : Z) (file : ConfigFile) (evs : list (Z * Event))
         (code : Z) (w : World),
    run evs (boot e t0 file) = Halt code w ->
    (code = 0 <-> In (Log "   - Result: SUCCESS") (trace w)).

(** The run that succeeds at 650, and a Steam error 50 ms later. *)
Definition success_then_error : list (Z * Event) :=
  [(50, LoggedOn "76561198000000001" (Some "alice"));
   (350, ConnectedToGC);
   (650, ProfileResponse 2 (Some sample_profile));
   (700, SteamError "LoggedInElsewhere" 6)].

Definition after_success_then_error : World :=
  world_of (run success_then_error
              (boot sample_env 0 (FileParsed (DocObject sample_config)))).

(** * Proofs *)

(** Runs the monad's plumbing and the record updates. *)
Ltac js_run :=
  cbv [modify emit console_log clearTimeout setTimeout ret bind get
       process_exit uncaught disarm];
  cbn [env config testStartTime gcConnectStartTime testCompleted testTimeout
       now timers next_timer requests trace
       with_config with_testStartTime with_gcConnectStartTime
       with_testCompleted with_testTimeout with_now with_timers
       with_requests with_trace].

(** ** completeTest *)

Lemma completeTest_done (r : string) (w : World) :
  testCompleted w = true -> completeTest r w = Continue tt w.
Proof.
  intros Hdone. unfold completeTest, bind, get. rewrite Hdone. reflexivity.
Qed.

(** Splits a trace whose recent part is explicit from its old part. *)
Ltac split_trace :=
  cbn [trace with_trace];
  lazymatch goal with
  | |- exists added, ?l = added ++ _ /\ _ =>
      let rec peel l :=
        lazymatch l with
        | ?x :: ?rest => let p := peel rest in constr:(x :: p)
        | _ => constr:(@nil Effect)
        end in
      let p := peel l in exists p; split; [reflexivity|]
  end.

(** Finds an effect in an explicit list. *)
Ltac find_here :=
  cbn [In]; repeat (first [left; reflexivity | right]).

Lemma completeTest_fresh (r : string) (w : World) :
  testCompleted w = false ->
  exists w1, completeTest r w = Continue tt w1 /\ finalized_by r w w1.
Proof.
  intros Hfresh. unfold completeTest, bind, get. rewrite Hfresh. js_run.
  destruct (String.eqb r "SUCCESS") eqn:Hs, (String.eqb r "TIMEOUT") eqn:Ht;
    js_run.
  all: destruct (steam_logOff (env w)); js_run.
  all: eexists; split; [reflexivity|].
  all: split; try reflexivity.
  all: split_trace.
  all: repeat split; try find_here.
  all: intros; first [congruence | find_here].
Qed.

Lemma completeTest_continues (r : string) (w : World) :
  exists w1, completeTest r w = Continue tt w1.
Proof.
  destruct (testCompleted w) eqn:Hflag.
  - exists w. now apply completeTest_done.
  - destruct (completeTest_fresh r w Hflag) as (w1 & Hrun & _). now exists w1.
Qed.

Lemma complete_all_done (rs : list string) (w : World) :
  testCompleted w = true -> complete_all rs w = Continue tt w.
Proof.
  intros Hdone. induction rs as [|r rs IH]; [reflexivity|].
  cbn [complete_all]. unfold bind. now rewrite completeTest_done.
Qed.

(** ** What every handler keeps *)

Lemma diagnosis_not_banner (E : EResultTable) (eresult : Z) :
  String.eqb (diagnosis E eresult) completed_banner = false.
Proof.
  unfold diagnosis.
  repeat match goal with
         | |- context [if ?c then _ else _] => destruct c
         end; reflexivity.
Qed.

Lemma report_matches_flag_respects : respects report_matches_flag.
Proof.
  intros w w1 (Hf & Hr & _). unfold report_matches_flag. now rewrite Hr, Hf.
Qed.

Lemma not_started_respects : respects not_started.
Proof. intros w w1 (Hf & Hr & _). unfold not_started. now rewrite Hr, Hf. Qed.

Lemma finalized_with_respects (n : nat) : respects (finalized_with n).
Proof.
  intros w w1 (Hf & Hr & _). unfold finalized_with. now rewrite Hr, Hf.
Qed.

Lemma no_exit_timer_respects : respects no_exit_timer.
Proof.
  intros w w1 (_ & _ & _ & Htimers) Hw id d r Harmed.
  exact (Hw id d r (Htimers id d r Harmed)).
Qed.

Lemma exit_timers_recorded_respects : respects exit_timers_recorded.
Proof.
  intros w w1 (Hf & _ & (added & Htrace) & Htimers) Hw id d r Harmed.
  destruct (Hw id d r (Htimers id d r Harmed)) as [Hflag Hres].
  split; [now rewrite Hf|]. rewrite Htrace. apply in_or_app. now right.
Qed.

Lemma calm_refl (w : World) : calm w w.
Proof. repeat split; [now exists []|auto]. Qed.

Lemma calm_emit (e : Effect) (w : World) :
  is_banner e = false -> calm w (with_trace (e :: trace w) w).
Proof.
  intros He. repeat split.
  - unfold reports. cbn [trace with_trace List.filter]. now rewrite He.
  - now exists [e].
  - auto.
Qed.

Lemma calm_setTimeout (cb : TimerCb) (delay : Z) (w w1 : World) (id : nat) :
  (forall r, cb <> ExitCb r) ->
  setTimeout cb delay w = Continue id w1 -> calm w w1.
Proof.
  intros Hcb [= _ <-]. repeat split.
  - now exists [SetTimeout (next_timer w) delay].
  - cbn [timers with_trace with_timers]. intros id' d r Harmed.
    destruct (decide (next_timer w = id')) as [<-|Hne].
    + rewrite lookup_insert_eq in Harmed. injection Harmed as _ Heq.
      now destruct (Hcb r).
    + now rewrite lookup_insert_ne in Harmed.
Qed.

Lemma calm_delete (id : nat) (w w1 : World) :
  testCompleted w1 = testCompleted w ->
  reports w1 = reports w ->
  (exists added, trace w1 = added ++ trace w) ->
  timers w1 = delete id (timers w) ->
  calm w w1.
Proof.
  intros Hf Hr Htrace Htimers. repeat split; try assumption.
  intros id' d r Harmed. rewrite Htimers in Harmed.
  now apply lookup_delete_Some in Harmed as [_ Harmed].
Qed.

Section KeepRules.
Context {A B : Type} (I : World -> Prop) (HI : respects I).

Lemma keeps_ret (a : A) : keeps I (ret a).
Proof. intros w Hw. exact Hw. Qed.

Lemma keeps_get (f : World -> A) : keeps I (get f).
Proof. intros w Hw. exact Hw. Qed.

Lemma keeps_process_exit (code : Z) : keeps I (@process_exit A code).
Proof. intros w Hw. exact Hw. Qed.

Lemma keeps_bind (m : M A) (k : A -> M B) :
  keeps I m -> (forall a, keeps I (k a)) -> keeps I (bind m k).
Proof.
  intros Hm Hk w Hw. unfold bind. specialize (Hm w Hw).
  destruct (m w) as [a w1|c w1]; [apply Hk|]; exact Hm.
Qed.

Lemma keeps_modify (f : World -> World) : quiet f -> keeps I (modify f).
Proof. intros Hf w Hw. cbn. exact (HI w (f w) (Hf w) Hw). Qed.

Lemma keeps_emit (e : Effect) : is_banner e = false -> keeps I (emit e).
Proof. intros He w Hw. cbn. exact (HI w _ (calm_emit e w He) Hw). Qed.

Lemma keeps_console_log (line : string) :
  String.eqb line completed_banner = false -> keeps I (console_log line).
Proof. intros Hline. now apply keeps_emit. Qed.

Lemma keeps_uncaught (message : string) : keeps I (@uncaught A message).
Proof.
  intros w Hw. cbn.
  exact (HI w _ (calm_emit (Uncaught message) w eq_refl) Hw).
Qed.

Lemma keeps_setTimeout (cb : TimerCb) (delay : Z) :
  (forall r, cb <> ExitCb r) -> keeps I (setTimeout cb delay).
Proof.
  intros Hcb w Hw.
  exact (HI w _ (calm_setTimeout cb delay w _ _ Hcb eq_refl) Hw).
Qed.

Lemma keeps_clearTimeout (id : nat) : keeps I (clearTimeout id).
Proof.
  intros w Hw. cbn. apply (HI w); [|exact Hw].
  apply (calm_delete id); try reflexivity. now exists [ClearTimeout id].
Qed.
End KeepRules.

(** The gate keeps the report in step with the flag. *)
Lemma keeps_completeTest (r : string) :
  keeps report_matches_flag (completeTest r).
Proof.
  intros w Hw. destruct (testCompleted w) eqn:Hflag.
  - now rewrite completeTest_done.
  - destruct (completeTest_fresh r w Hflag) as (w1 & -> & Hfin).
    unfold report_matches_flag in *.
    now rewrite (fin_reports _ _ _ Hfin), (fin_flag _ _ _ Hfin), Hw, Hflag.
Qed.

(** Once the run is finalized the gate is shut. *)
Lemma keeps_completeTest_shut (n : nat) (r : string) :
  keeps (finalized_with n) (completeTest r).
Proof. intros w Hw. rewrite completeTest_done; [exact Hw|apply Hw]. Qed.

(** The exit timer the gate arms holds the result it printed. *)
Lemma keeps_completeTest_recorded (r : string) :
  keeps exit_timers_recorded (completeTest r).
Proof.
  intros w Hw. destruct (testCompleted w) eqn:Hflag.
  - now rewrite completeTest_done.
  - destruct (completeTest_fresh r w Hflag) as (w1 & -> & Hfin).
    intros id d r' Harmed. rewrite (fin_timers _ _ _ Hfin) in Harmed.
    split; [apply Hfin|].
    destruct (fin_trace _ _ _ Hfin) as (added & -> & _ & _ & Hres & _).
    destruct (decide (next_timer w = id)) as [<-|Hne].
    + rewrite lookup_insert_eq in Harmed. injection Harmed as _ <-.
      apply in_or_app. now left.
    + rewrite lookup_insert_ne in Harmed by exact Hne.
      apply lookup_delete_Some in Harmed as [_ Harmed].
      destruct (Hw id d r' Harmed) as [Hdone _]. congruence.
Qed.

(** The side condition of [keeps_modify], for the updates of the
    handlers. *)
Ltac quiet_update :=
  intros ?; first
    [ apply calm_refl
    | eapply calm_delete; [reflexivity|reflexivity|now exists []|reflexivity]
    | repeat split; [now exists []|auto] ].

Ltac keeps_step :=
  lazymatch goal with
  | |- keeps _ (bind _ _) => apply keeps_bind; [|intros ?]
  | |- keeps _ (completeTest _) =>
      match goal with
      | Hgate : forall r, keeps _ (completeTest r) |- _ => apply Hgate
      end
  | |- keeps _ (process_exit _) => apply keeps_process_exit
  | |- keeps _ (uncaught _) => apply keeps_uncaught; assumption
  | |- keeps _ (ret _) => apply keeps_ret
  | |- keeps _ (get _) => apply keeps_get
  | |- keeps _ (console_log _) =>
      apply keeps_console_log;
      [assumption|first [reflexivity | apply diagnosis_not_banner]]
  | |- keeps _ (emit _) => apply keeps_emit; [assumption|reflexivity]
  | |- keeps _ (modify _) => apply keeps_modify; [assumption|quiet_update]
  | |- keeps _ (setTimeout _ _) =>
      apply keeps_setTimeout; [assumption|intros ?; discriminate]
  | |- keeps _ (clearTimeout _) => apply keeps_clearTimeout; assumption
  | |- keeps _ (if ?c then _ else _) => destruct c
  | |- keeps _ (match ?x with _ => _ end) => destruct x
  | |- keeps _ (profile_callback _ _ _) => unfold profile_callback
  | |- keeps _ testProfileRequest => unfold testProfileRequest
  | |- keeps _ generateAuthCode => unfold generateAuthCode
  | |- keeps _ startTest => unfold startTest
  | |- keeps _ (run_callback _) => unfold run_callback
  | |- keeps _ global_timeout_cb => unfold global_timeout_cb
  | |- keeps _ gc_timeout_cb => unfold gc_timeout_cb
  | |- keeps _ request_timeout_cb => unfold request_timeout_cb
  | |- keeps _ (exit_cb _) => unfold exit_cb
  | |- keeps _ (loadConfig _) => unfold loadConfig
  end.

Lemma keeps_check_required (I : World -> Prop) (fields : list string)
  (cfg : gmap string JValue) :
  respects I -> keeps I (check_required fields cfg).
Proof.
  intros HI. induction fields as [|f rest IH]; cbn [check_required].
  - apply keeps_ret.
  - destruct (prop_truthy (cfg !! f)); [exact IH|]. repeat keeps_step.
Qed.

Lemma keeps_handle (I : World -> Prop) (ev : Event) :
  respects I ->
  (forall r, keeps I (completeTest r)) ->
  keeps I (handle ev).
Proof.
  intros HI Hgate. destruct ev; cbn [handle].
  - unfold on_error. repeat keeps_step.
  - unfold on_loggedOn. repeat keeps_step.
  - unfold on_disconnected. repeat keeps_step.
  - unfold on_connectedToGC. repeat keeps_step.
  - unfold on_disconnectedFromGC. repeat keeps_step.
  - unfold respond. repeat keeps_step.
  - unfold fire. repeat keeps_step.
  - unfold on_SIGINT. repeat keeps_step.
  - unfold on_SIGTERM. repeat keeps_step.
Qed.

(** The script up to [startTest()] does not finalize and arms no exit
    timer. *)
Lemma keeps_script (file : ConfigFile) :
  keeps (fun w => not_started w /\ no_exit_timer w) (script file).
Proof.
  assert (HI : respects (fun w => not_started w /\ no_exit_timer w)).
  { intros w w1 Hcalm [Hw Hnone].
    split; [exact (not_started_respects w w1 Hcalm Hw)
           |exact (no_exit_timer_respects w w1 Hcalm Hnone)]. }
  unfold script. apply keeps_bind.
  - destruct file as [|message|[cfg| |]]; cbn [loadConfig];
      repeat first [apply keeps_check_required; assumption | keeps_step].
  - intros cfg. repeat keeps_step.
    intros w [[Hreports Hflag] Hnone]. cbn.
    split; [split; [exact Hreports|reflexivity]|exact Hnone].
Qed.

Lemma not_started_matches (w : World) : not_started w -> report_matches_flag w.
Proof. intros [Hr Hf]. unfold report_matches_flag. now rewrite Hr, Hf. Qed.

Lemma no_exit_timer_recorded (w : World) :
  no_exit_timer w -> exit_timers_recorded w.
Proof. intros Hnone id d r Harmed. destruct (Hnone id d r Harmed). Qed.

Lemma boot_keeps (e : Env) (t0 : Z) (file : ConfigFile) :
  report_matches_flag (world_of (boot e t0 file)) /\
  exit_timers_recorded (world_of (boot e t0 file)).
Proof.
  unfold boot.
  assert (Hstart : not_started (initial_world e t0) /\
                   no_exit_timer (initial_world e t0)).
  { split; [now split|]. intros id d r Harmed. cbn in Harmed.
    now rewrite lookup_empty in Harmed. }
  pose proof (keeps_script file (initial_world e t0) Hstart) as Hboot.
  destruct (script file _); cbn [world_of]; destruct Hboot as [Hns Hnone];
    (split; [now apply not_started_matches|now apply no_exit_timer_recorded]).
Qed.

Lemma run_keeps (I : World -> Prop) (evs : list (Z * Event))
  (p : Outcome unit) :
  respects I ->
  (forall r, keeps I (completeTest r)) ->
  I (world_of p) -> I (world_of (run evs p)).
Proof.
  intros HI Hgate. revert p.
  induction evs as [|[t ev] rest IH]; intros p Hp; [exact Hp|].
  cbn [run]. apply IH. destruct p as [[] w|c w]; cbn [dispatch world_of] in *.
  - assert (Hclock : I (with_now (Z.max (now w) t) w))
      by (apply (HI w); [repeat split; [now exists []|auto]|exact Hp]).
    pose proof (keeps_handle I ev HI Hgate _ Hclock) as Hstep.
    destruct (handle ev _); exact Hstep.
  - exact Hp.
Qed.

(** X16: whatever the configuration, the environment and the events
    that follow, a run prints the completion report at most once, and
    exactly once when it was finalized. *)
Theorem run_reports_once (e : Env) (t0 : Z) (file : ConfigFile)
  (evs : list (Z * Event)) :
  let w := world_of (run evs (boot e t0 file)) in
  reports w = if testCompleted w then 1%nat else 0%nat.
Proof.
  apply (run_keeps report_matches_flag).
  - apply report_matches_flag_respects.
  - apply keeps_completeTest.
  - apply boot_keeps.
Qed.

(** An exit timer armed in a run was armed by the finalization of the
    run, and holds the result the report shows. *)
Lemma run_exit_timers_recorded (e : Env) (t0 : Z) (file : ConfigFile)
  (evs : list (Z * Event)) :
  exit_timers_recorded (world_of (run evs (boot e t0 file))).
Proof.
  apply (run_keeps exit_timers_recorded).
  - apply exit_timers_recorded_respects.
  - apply keeps_completeTest_recorded.
  - apply boot_keeps.
Qed.

(** ** Exactly one finalization *)

(** C1: in any sequence of calls of [completeTest] on a run that is not
    yet finalized, the first call finalizes (it sets [testCompleted],
    prints the report once, logs off once and arms the exit timer), and
    each later call returns at once and leaves the world as it is; so
    the whole sequence prints exactly one report, and whatever events
    follow, in whatever order, the run stays finalized with that one
    report. *)
Theorem completeTest_exactly_once (w : World) (first : string)
  (later : list string) :
  testCompleted w = false ->
  exists w1,
    completeTest first w = Continue tt w1 /\
    testCompleted w1 = true /\
    reports w1 = S (reports w) /\
    logoffs w1 = S (logoffs w) /\
    timers w1 !! next_timer w =
      Some {| deadline := now w + 1000; callback := ExitCb first |} /\
    (forall r, completeTest r w1 = Continue tt w1) /\
    complete_all (first :: later) w = Continue tt w1 /\
    (forall evs,
       testCompleted (world_of (run evs (Continue tt w1))) = true /\
       reports (world_of (run evs (Continue tt w1))) = S (reports w)).
Proof.
  intros Hfresh.
  destruct (completeTest_fresh first w Hfresh) as (w1 & Hrun & Hfin).
  exists w1. repeat split.
  - exact Hrun.
  - apply Hfin.
  - apply Hfin.
  - apply Hfin.
  - rewrite (fin_timers _ _ _ Hfin). apply lookup_insert_eq.
  - intros r. apply completeTest_done, Hfin.
  - cbn [complete_all]. unfold bind. rewrite Hrun.
    apply complete_all_done, Hfin.
  - apply (run_keeps (finalized_with (S (reports w))) evs (Continue tt w1)).
    + apply finalized_with_respects.
    + apply keeps_completeTest_shut.
    + split; apply Hfin.
  - apply (run_keeps (finalized_with (S (reports w))) evs (Continue tt w1)).
    + apply finalized_with_respects.
    + apply keeps_completeTest_shut.
    + split; apply Hfin.
Qed.

Lemma completeTest_exactly_once_witness :
  testCompleted probing = false /\
  exists w1,
    completeTest "INTERRUPTED" probing = Continue tt w1 /\
    testCompleted w1 = true /\
    reports w1 = S (reports probing) /\
    logoffs w1 = S (logoffs probing) /\
    timers w1 !! next_timer probing =
      Some {| deadline := now probing + 1000;
              callback := ExitCb "INTERRUPTED" |} /\
    (forall r, completeTest r w1 = Continue tt w1) /\
    complete_all ["INTERRUPTED"; "TIMEOUT"; "SUCCESS"] probing =
      Continue tt w1 /\
    (forall evs,
       testCompleted (world_of (run evs (Continue tt w1))) = true /\
       reports (world_of (run evs (Continue tt w1))) = S (reports probing)).
Proof.
  split; [reflexivity|].
  apply (completeTest_exactly_once probing "INTERRUPTED"
           ["TIMEOUT"; "SUCCESS"]).
  reflexivity.
Defined.

(** ** Signals that end the process on their own *)

(** C2, as stated, fails: a Steam error with [InvalidPassword] right
    after start ends the process at once and does not go through
    [completeTest]. *)
Lemma terminal_signals_do_not_pass_gate :
  ~ every_terminal_signal_passes_gate.
Proof.
  intros Hall.
  destruct (Hall booted 10 (SteamError "InvalidPassword" 5) eq_refl
              (signal_error _ _ _ _)) as (w1 & Hrun & _).
  vm_compute in Hrun. discriminate Hrun.
Qed.

(** Splits off the lines a handler printed. *)
Ltac split_logs :=
  cbn [trace with_trace];
  lazymatch goal with
  | |- exists lines, ?l = map Log lines ++ _ =>
      let rec peel l :=
        lazymatch l with
        | Log ?x :: ?rest => let p := peel rest in constr:(x :: p)
        | _ => constr:(@nil string)
        end in
      let p := peel l in exists p; reflexivity
  end.

(** C2, amended: while the run is not finalized, each terminal signal of
    a collaborator is handled by its own handler, which only prints and
    then ends the process at once with exit code 1; [completeTest] is
    not entered: the flag stays unset, no report is printed, nothing is
    logged off and no timer is cancelled or armed by the handler. *)
Theorem terminal_signal_exits_directly (w : World) (t : Z) (ev : Event) :
  testCompleted w = false ->
  terminal_signal w t ev ->
  exists w1,
    dispatch t ev (Continue tt w) = Halt 1 w1 /\
    testCompleted w1 = false /\
    reports w1 = reports w /\
    logoffs w1 = logoffs w /\
    next_timer w1 = next_timer w /\
    (exists lines, trace w1 = map Log lines ++ trace w) /\
    forall id, timers w1 !! id = None \/ timers w1 !! id = timers w !! id.
Proof.
  intros Hfresh Hsig. unfold dispatch.
  destruct Hsig as [message eresult|eresult msg|reason|id d Harmed Hdue];
    cbn [handle].
  - unfold on_error. js_run.
    eexists; repeat split; try reflexivity; try assumption.
    + unfold reports. cbn [trace with_trace List.filter is_banner].
      now rewrite diagnosis_not_banner.
    + split_logs.
    + intros id; now right.
  - unfold on_disconnected. js_run. rewrite Hfresh. js_run.
    eexists; repeat split; try reflexivity; try assumption.
    + split_logs.
    + intros id; now right.
  - unfold on_disconnectedFromGC. js_run. rewrite Hfresh. js_run.
    eexists; repeat split; try reflexivity; try assumption.
    + split_logs.
    + intros id; now right.
  - unfold fire. js_run. rewrite Harmed. cbn [deadline callback].
    apply Z.leb_le in Hdue. rewrite Hdue.
    cbn [run_callback]. unfold global_timeout_cb. js_run. rewrite Hfresh.
    js_run.
    eexists; repeat split; try reflexivity; try assumption.
    + split_logs.
    + intros id'. destruct (decide (id = id')) as [->|Hne].
      * left. apply lookup_delete_eq.
      * right. now apply lookup_delete_ne.
Qed.

Lemma terminal_signal_exits_directly_witness :
  testCompleted probing = false /\
  terminal_signal probing 400 (DisconnectedFromGC 2) /\
  exists w1,
    dispatch 400 (DisconnectedFromGC 2) (Continue tt probing) = Halt 1 w1 /\
    testCompleted w1 = false /\
    reports w1 = reports probing /\
    logoffs w1 = logoffs probing /\
    next_timer w1 = next_timer probing /\
    (exists lines, trace w1 = map Log lines ++ trace probing) /\
    forall id, timers w1 !! id = None \/ timers w1 !! id = timers probing !! id.
Proof.
  split; [reflexivity|]. split; [constructor|].
  apply (terminal_signal_exits_directly probing 400 (DisconnectedFromGC 2)).
  - reflexivity.
  - constructor.
Defined.

(** ** Timers at finalization *)

(** C3, as stated, fails: an interrupt in the middle of the profile
    request finalizes the run and leaves both the 2 minute timer and the
    30 second timer armed. *)
Lemma stage_timers_survive_finalization :
  testCompleted probing = false /\
  ~ cancels_every_armed_timer "INTERRUPTED" probing.
Proof.
  split; [reflexivity|]. intros Hall.
  destruct (completeTest_continues "INTERRUPTED" probing) as (w1 & Hrun).
  pose proof (Hall w1 Hrun 2%nat
                {| deadline := 30350; callback := RequestTimeoutCb |}
                eq_refl) as Hgone.
  vm_compute in Hrun. injection Hrun as <-.
  vm_compute in Hgone. discriminate Hgone.
Qed.

(** C3, amended: the first finalization cancels the 5 minute timer, and
    that one only; every other timer armed before, the 2 minute and the
    30 second timer among them, stays armed as it was, and the exit
    timer is armed in addition. *)
Theorem completeTest_cancels_global_timer_only (r : string) (w : World) :
  testCompleted w = false ->
  testTimeout w <> next_timer w ->
  exists w1,
    completeTest r w = Continue tt w1 /\
    timers w1 !! testTimeout w = None /\
    In (ClearTimeout (testTimeout w)) (trace w1) /\
    (forall id, id <> testTimeout w -> id <> next_timer w ->
                timers w1 !! id = timers w !! id) /\
    timers w1 !! next_timer w =
      Some {| deadline := now w + 1000; callback := ExitCb r |}.
Proof.
  intros Hfresh Hhandle.
  destruct (completeTest_fresh r w Hfresh) as (w1 & Hrun & Hfin).
  exists w1. rewrite (fin_timers _ _ _ Hfin). repeat split.
  - exact Hrun.
  - rewrite lookup_insert_ne by congruence. apply lookup_delete_eq.
  - destruct (fin_trace _ _ _ Hfin) as (added & -> & Hclear & _).
    apply in_or_app. now left.
  - intros id Hglobal Hexit.
    rewrite lookup_insert_ne by congruence.
    now rewrite lookup_delete_ne by congruence.
  - apply lookup_insert_eq.
Qed.

Lemma completeTest_cancels_global_timer_only_witness :
  testCompleted probing = false /\
  testTimeout probing <> next_timer probing /\
  exists w1,
    completeTest "INTERRUPTED" probing = Continue tt w1 /\
    timers w1 !! testTimeout probing = None /\
    In (ClearTimeout (testTimeout probing)) (trace w1) /\
    (forall id, id <> testTimeout probing -> id <> next_timer probing ->
                timers w1 !! id = timers probing !! id) /\
    timers w1 !! next_timer probing =
      Some {| deadline := now probing + 1000;
              callback := ExitCb "INTERRUPTED" |}.
Proof.
  split; [reflexivity|]. split; [vm_compute; discriminate|].
  apply (completeTest_cancels_global_timer_only "INTERRUPTED" probing).
  - reflexivity.
  - vm_compute; discriminate.
Defined.

(** ** Exit codes *)

Section ExitRules.
Context {A B : Type} (code : Z).

Lemma exits_ret (a : A) : exits_only_with code (ret a).
Proof. intros w c w' H. discriminate H. Qed.

Lemma exits_get (f : World -> A) : exits_only_with code (get f).
Proof. intros w c w' H. discriminate H. Qed.

Lemma exits_bind (m : M A) (k : A -> M B) :
  exits_only_with code m ->
  (forall a, exits_only_with code (k a)) ->
  exits_only_with code (bind m k).
Proof.
  intros Hm Hk w c w' H. unfold bind in H.
  destruct (m w) as [a w1|c1 w1] eqn:Hrun.
  - exact (Hk a w1 c w' H).
  - injection H as <- <-. exact (Hm w c1 w1 Hrun).
Qed.

Lemma exits_process_exit : exits_only_with code (@process_exit A code).
Proof. intros w c w' H. now injection H as <- _. Qed.
End ExitRules.

Lemma exits_modify (code : Z) (f : World -> World) :
  exits_only_with code (modify f).
Proof. intros w c w' H. discriminate H. Qed.

Lemma exits_emit (code : Z) (e : Effect) : exits_only_with code (emit e).
Proof. apply exits_modify. Qed.

Lemma exits_setTimeout (code : Z) (cb : TimerCb) (delay : Z) :
  exits_only_with code (setTimeout cb delay).
Proof. intros w c w' H. discriminate H. Qed.

Lemma exits_clearTimeout (code : Z) (id : nat) :
  exits_only_with code (clearTimeout id).
Proof. intros w c w' H. discriminate H. Qed.

Lemma exits_uncaught {A : Type} (message : string) :
  exits_only_with 1 (@uncaught A message).
Proof. intros w c w' H. now injection H as <- _. Qed.

Lemma exits_completeTest (code : Z) (r : string) :
  exits_only_with code (completeTest r).
Proof.
  intros w c w' H. destruct (completeTest_continues r w) as [w1 Hrun].
  rewrite Hrun in H. discriminate H.
Qed.

Ltac exits_step :=
  lazymatch goal with
  | |- exits_only_with _ (bind _ _) => apply exits_bind; [|intros ?]
  | |- exits_only_with _ (completeTest _) => apply exits_completeTest
  | |- exits_only_with _ (process_exit _) => apply exits_process_exit
  | |- exits_only_with _ (uncaught _) => apply exits_uncaught
  | |- exits_only_with _ (ret _) => apply exits_ret
  | |- exits_only_with _ (get _) => apply exits_get
  | |- exits_only_with _ (console_log _) => apply exits_emit
  | |- exits_only_with _ (emit _) => apply exits_emit
  | |- exits_only_with _ (modify _) => apply exits_modify
  | |- exits_only_with _ (setTimeout _ _) => apply exits_setTimeout
  | |- exits_only_with _ (clearTimeout _) => apply exits_clearTimeout
  | |- exits_only_with _ (if ?c then _ else _) => destruct c
  | |- exits_only_with _ (match ?x with _ => _ end) => destruct x
  | |- exits_only_with _ (profile_callback _ _ _) => unfold profile_callback
  | |- exits_only_with _ testProfileRequest => unfold testProfileRequest
  | |- exits_only_with _ generateAuthCode => unfold generateAuthCode
  | |- exits_only_with _ startTest => unfold startTest
  end.

Ltac exits_auto := repeat exits_step.

Lemma exits_handlers_but_timers (ev : Event) :
  (forall id, ev <> TimerDue id) -> exits_only_with 1 (handle ev).
Proof.
  intros Hev. destruct ev; cbn [handle]; try (now destruct (Hev id)).
  - unfold on_error. exits_auto.
  - unfold on_loggedOn. exits_auto.
  - unfold on_disconnected. exits_auto.
  - unfold on_connectedToGC. exits_auto.
  - unfold on_disconnectedFromGC. exits_auto.
  - unfold respond. exits_auto.
  - unfold on_SIGINT. exits_auto.
  - unfold on_SIGTERM. exits_auto.
Qed.

Lemma exits_stage_callbacks (cb : TimerCb) :
  (forall r, cb <> ExitCb r) -> exits_only_with 1 (run_callback cb).
Proof.
  intros Hcb. destruct cb as [| | |r]; cbn [run_callback];
    try (now destruct (Hcb r)).
  - unfold global_timeout_cb. exits_auto.
  - unfold gc_timeout_cb. exits_auto.
  - unfold request_timeout_cb. exits_auto.
Qed.

(** One turn of the loop: an exit has code 0 or 1, and 0 exactly when
    the event is an exit timer holding [SUCCESS]. *)
Lemma exit_code_of_step (w : World) (t : Z) (ev : Event)
  (code : Z) (w' : World) :
  dispatch t ev (Continue tt w) = Halt code w' ->
  (code = 0 \/ code = 1) /\
  (code = 0 <->
   exists id d,
     ev = TimerDue id /\
     timers w !! id = Some {| deadline := d; callback := ExitCb "SUCCESS" |}).
Proof.
  unfold dispatch. intros Hexit.
  assert (Hone : code = 1 ->
                 (forall id d, ev = TimerDue id ->
                    timers w !! id =
                      Some {| deadline := d; callback := ExitCb "SUCCESS" |} ->
                    False) ->
                 (code = 0 \/ code = 1) /\
                 (code = 0 <->
                  exists id d,
                    ev = TimerDue id /\
                    timers w !! id =
                      Some {| deadline := d; callback := ExitCb "SUCCESS" |})).
  { intros -> Hnot. split; [now right|]. split; [discriminate|].
    intros (id & d & Hev & Harmed). destruct (Hnot id d Hev Harmed). }
  destruct (match ev with TimerDue id => Some id | _ => None end)
    as [id|] eqn:Hkind.
  - destruct ev; try discriminate Hkind. injection Hkind as ->.
    cbn [handle] in Hexit. unfold fire, bind, get in Hexit.
    cbn [timers now with_now] in Hexit.
    destruct (timers w !! id) as [[d cb]|] eqn:Harmed; [|discriminate Hexit].
    cbn [deadline callback] in Hexit.
    destruct (d <=? Z.max (now w) t); [|discriminate Hexit].
    fold (bind (modify (disarm id)) (fun _ => run_callback cb)) in Hexit.
    unfold bind, modify in Hexit.
    destruct cb as [| | |r].
    1-3: apply Hone;
      [ eapply exits_stage_callbacks; [|exact Hexit]; discriminate
      | intros id' d' [= <-] Harmed'; congruence ].
    cbn [run_callback] in Hexit. unfold exit_cb, process_exit in Hexit.
    destruct (String.eqb r "SUCCESS") eqn:Hr; injection Hexit as <- _.
    + apply String.eqb_eq in Hr. subst r.
      split; [now left|]. split; [|reflexivity].
      intros _. now exists id, d.
    + apply Hone; [reflexivity|].
      intros id' d' [= <-] Harmed'.
      rewrite Harmed in Harmed'. injection Harmed' as _ ->.
      discriminate Hr.
  - apply Hone.
    + eapply exits_handlers_but_timers; [|exact Hexit].
      intros id ->. discriminate Hkind.
    + intros id d ->. discriminate Hkind.
Qed.

Lemma exits_check_required (fields : list string)
  (cfg : gmap string JValue) :
  exits_only_with 1 (check_required fields cfg).
Proof.
  induction fields as [|f rest IH]; cbn [check_required]; exits_auto.
  exact IH.
Qed.

Lemma exits_script (file : ConfigFile) : exits_only_with 1 (script file).
Proof.
  unfold script. apply exits_bind.
  - destruct file as [|message|[cfg| |]]; cbn [loadConfig]; exits_auto;
      apply exits_check_required.
  - intros cfg. exits_auto.
Qed.

(** The process does not end at startup with a code other than 1. *)
Lemma startup_exits_with_one (e : Env) (t0 : Z) (file : ConfigFile)
  (c : Z) (w : World) :
  boot e t0 file = Halt c w -> c = 1.
Proof. apply exits_script. Qed.

Lemma terminal_signal_halts (w : World) (t : Z) (ev : Event) :
  testCompleted w = false ->
  terminal_signal w t ev ->
  exists w1, dispatch t ev (Continue tt w) = Halt 1 w1.
Proof.
  intros Hfresh Hsig. unfold dispatch.
  destruct Hsig as [message eresult|eresult msg|reason|id d Harmed Hdue];
    cbn [handle].
  - unfold on_error. js_run. eexists. reflexivity.
  - unfold on_disconnected. js_run. rewrite Hfresh. js_run.
    eexists. reflexivity.
  - unfold on_disconnectedFromGC. js_run. rewrite Hfresh. js_run.
    eexists. reflexivity.
  - unfold fire. js_run. rewrite Harmed. cbn [deadline callback].
    apply Z.leb_le in Hdue. rewrite Hdue.
    cbn [run_callback]. unfold global_timeout_cb. js_run. rewrite Hfresh.
    js_run. eexists. reflexivity.
Qed.

Lemma exit_timer_halts (w : World) (r : string) :
  testCompleted w = false ->
  exists w1,
    completeTest r w = Continue tt w1 /\
    forall t, now w + 1000 <= t ->
      exists w2,
        dispatch t (TimerDue (next_timer w)) (Continue tt w1) =
          Halt (if String.eqb r "SUCCESS" then 0 else 1) w2.
Proof.
  intros Hfresh.
  destruct (completeTest_fresh r w Hfresh) as (w1 & Hrun & Hfin).
  exists w1. split; [exact Hrun|]. intros t Hlate.
  unfold dispatch. cbn [handle]. unfold fire, bind, get, modify.
  cbn [timers now with_now]. rewrite (fin_timers _ _ _ Hfin).
  rewrite lookup_insert_eq. cbn [deadline callback run_callback].
  rewrite (fin_now _ _ _ Hfin).
  destruct (Z.leb_spec (now w + 1000) (Z.max (now w) t)) as [_|Hlt]; [|lia].
  eexists. reflexivity.
Qed.

(** C4, as stated, fails: a run whose report shows the result [SUCCESS]
    exits with code 1 when a Steam error arrives before its exit
    timer. *)
Lemma success_run_can_exit_with_one :
  run success_then_error
    (boot sample_env 0 (FileParsed (DocObject sample_config))) =
    Halt 1 after_success_then_error /\
  In (Log "   - Result: SUCCESS") (trace after_success_then_error) /\
  ~ exit_code_matches_verdict.
Proof.
  assert (Hrun : run success_then_error
                   (boot sample_env 0 (FileParsed (DocObject sample_config))) =
                   Halt 1 after_success_then_error)
    by (vm_compute; reflexivity).
  assert (Hres : In (Log "   - Result: SUCCESS")
                   (trace after_success_then_error)).
  { vm_compute. repeat (first [left; reflexivity | right]). }
  split; [exact Hrun|]. split; [exact Hres|].
  intros Hall.
  destruct (Hall sample_env 0 (FileParsed (DocObject sample_config))
              success_then_error 1 after_success_then_error Hrun)
    as [_ Hzero].
  specialize (Hzero Hres). discriminate Hzero.
Qed.

(** C4, amended: in every run from the start of the script, an exit has
    code 0 or 1, and code 0 exactly when it is made by the exit timer
    [completeTest] armed for the result [SUCCESS], and then the run was
    finalized and its report shows the result [SUCCESS].  The exit timer
    of a finalization, delivered a second after it, does end the
    process: with 0 for [SUCCESS] and with 1 for every other result.
    And while the run is not finalized, a Steam error, a Steam or Game
    Coordinator disconnect and the 5 minute timer each end the process
    with code 1. *)
Theorem exit_code_by_exit_path (e : Env) (t0 : Z) (file : ConfigFile)
  (evs : list (Z * Event)) (w : World) :
  run evs (boot e t0 file) = Continue tt w ->
  (forall t ev code w',
     dispatch t ev (Continue tt w) = Halt code w' ->
     (code = 0 \/ code = 1) /\
     (code = 0 <->
      exists id d,
        ev = TimerDue id /\
        timers w !! id =
          Some {| deadline := d; callback := ExitCb "SUCCESS" |}) /\
     (code = 0 ->
      testCompleted w = true /\
      In (Log "   - Result: SUCCESS") (trace w))) /\
  (forall r,
     testCompleted w = false ->
     exists w1,
       completeTest r w = Continue tt w1 /\
       forall t, now w + 1000 <= t ->
         exists w2,
           dispatch t (TimerDue (next_timer w)) (Continue tt w1) =
             Halt (if String.eqb r "SUCCESS" then 0 else 1) w2) /\
  (testCompleted w = false ->
   forall t ev,
     terminal_signal w t ev ->
     exists w1, dispatch t ev (Continue tt w) = Halt 1 w1).
Proof.
  intros Hrun. split; [|split].
  - intros t ev code w' Hexit.
    destruct (exit_code_of_step w t ev code w' Hexit) as [Hcode Hzero].
    split; [exact Hcode|]. split; [exact Hzero|].
    intros Hsuccess. apply Hzero in Hsuccess as (id & d & _ & Harmed).
    pose proof (run_exit_timers_recorded e t0 file evs) as Hrec.
    rewrite Hrun in Hrec. exact (Hrec id d "SUCCESS" Harmed).
  - intros r Hfresh. now apply exit_timer_halts.
  - intros Hfresh t ev Hsig. now apply terminal_signal_halts.
Qed.

Lemma exit_code_by_exit_path_witness :
  run [(50, LoggedOn "76561198000000001" (Some "alice"));
       (350, ConnectedToGC)]
    (boot sample_env 0 (FileParsed (DocObject sample_config))) =
    Continue tt probing /\
  (exists w1 w2,
     completeTest "SUCCESS" probing = Continue tt w1 /\
     dispatch 1350 (TimerDue (next_timer probing)) (Continue tt w1) =
       Halt 0 w2) /\
  (exists w1 w2,
     completeTest "NO_DATA" probing = Continue tt w1 /\
     dispatch 1350 (TimerDue (next_timer probing)) (Continue tt w1) =
       Halt 1 w2) /\
  exists w1,
    dispatch 400 (SteamError "InvalidPassword" 5) (Continue tt probing) =
      Halt 1 w1.
Proof.
  assert (Hrun : run [(50, LoggedOn "76561198000000001" (Some "alice"));
                      (350, ConnectedToGC)]
                   (boot sample_env 0 (FileParsed (DocObject sample_config))) =
                   Continue tt probing) by (vm_compute; reflexivity).
  split; [exact Hrun|].
  destruct (exit_code_by_exit_path _ _ _ _ _ Hrun) as (_ & Htimer & Hsignal).
  split; [|split].
  - destruct (Htimer "SUCCESS" eq_refl) as (w1 & Hfin & Hexit).
    destruct (Hexit 1350) as [w2 Hw2]; [vm_compute; discriminate|].
    exists w1, w2. split; [exact Hfin|exact Hw2].
  - destruct (Htimer "NO_DATA" eq_refl) as (w1 & Hfin & Hexit).
    destruct (Hexit 1350) as [w2 Hw2]; [vm_compute; discriminate|].
    exists w1, w2. split; [exact Hfin|exact Hw2].
  - apply (Hsignal eq_refl 400 (SteamError "InvalidPassword" 5)).
    constructor.
Defined.

(** ** The diagnosis of a Steam error *)

(** C5, as stated, fails: [TwoFactorCodeMismatch] is neither the invalid
    credential nor the rate limit cause, and it is not diagnosed as an
    unknown error with its code. *)
Lemma two_factor_mismatch_has_own_diagnosis :
  diagnosis steam_user_EResult 88 = "   - Diagnosis: 2FA code mismatch" /\
  ~ diagnosis_follows_claim steam_user_EResult.
Proof.
  split; [reflexivity|]. intros Hall. specialize (Hall 88).
  vm_compute in Hall. discriminate Hall.
Qed.

(** C5, amended: the ['error'] handler prints one diagnosis, a function
    of the cause alone, and exits with code 1: [InvalidPassword] gives
    'Invalid credentials', [RateLimitExceeded] gives 'Login rate
    limited', the two two-factor causes give their own two-factor
    diagnoses, and every other cause gives 'Unknown error' with the raw
    code. *)
Theorem steam_error_diagnosis (w : World) (message : string) (eresult : Z) :
  let E := EResult (env w) in
  NoDup [InvalidPassword E; TwoFactorCodeMismatch E;
         AccountLoginDeniedNeedTwoFactor E; RateLimitExceeded E] ->
  exists w1,
    on_error message eresult w = Halt 1 w1 /\
    trace w1 =
      Log (diagnosis E eresult)
      :: Log ("   - EResult: " +:+ pretty eresult)
      :: Log "🔍 Error Details:"
      :: Log ("❌ Steam Error: " +:+ message) :: trace w /\
    (eresult = InvalidPassword E ->
     diagnosis E eresult = "   - Diagnosis: Invalid credentials") /\
    (eresult = RateLimitExceeded E ->
     diagnosis E eresult = "   - Diagnosis: Login rate limited") /\
    (eresult = TwoFactorCodeMismatch E ->
     diagnosis E eresult = "   - Diagnosis: 2FA code mismatch") /\
    (eresult = AccountLoginDeniedNeedTwoFactor E ->
     diagnosis E eresult =
       "   - Diagnosis: 2FA required but not provided correctly") /\
    (eresult <> InvalidPassword E ->
     eresult <> RateLimitExceeded E ->
     eresult <> TwoFactorCodeMismatch E ->
     eresult <> AccountLoginDeniedNeedTwoFactor E ->
     diagnosis E eresult =
       "   - Diagnosis: Unknown error (" +:+ pretty eresult +:+ ")").
Proof.
  intros E Hdistinct.
  apply NoDup_cons in Hdistinct as [Hpw Hdistinct].
  apply NoDup_cons in Hdistinct as [Hmis Hdistinct].
  apply NoDup_cons in Hdistinct as [Hneed _].
  apply not_elem_of_cons in Hpw as [Hpw1 Hpw].
  apply not_elem_of_cons in Hpw as [Hpw2 Hpw].
  apply not_elem_of_cons in Hpw as [Hpw3 _].
  apply not_elem_of_cons in Hmis as [Hmis1 Hmis].
  apply not_elem_of_cons in Hmis as [Hmis2 _].
  apply not_elem_of_cons in Hneed as [Hneed1 _].
  eexists. split; [reflexivity|]. split; [reflexivity|].
  unfold diagnosis.
  repeat split; intros;
    repeat match goal with
           | |- context [?a =? ?b] =>
               destruct (Z.eqb_spec a b); try congruence
           end.
Qed.

Lemma steam_error_diagnosis_witness :
  NoDup [InvalidPassword (EResult (env booted));
         TwoFactorCodeMismatch (EResult (env booted));
         AccountLoginDeniedNeedTwoFactor (EResult (env booted));
         RateLimitExceeded (EResult (env booted))] /\
  exists w1,
    on_error "RateLimitExceeded" 84 booted = Halt 1 w1 /\
    head (trace w1) = Some (Log "   - Diagnosis: Login rate limited").
Proof.
  assert (Hdistinct :
            NoDup [InvalidPassword (EResult (env booted));
                   TwoFactorCodeMismatch (EResult (env booted));
                   AccountLoginDeniedNeedTwoFactor (EResult (env booted));
                   RateLimitExceeded (EResult (env booted))]).
  { apply (bool_decide_unpack _). vm_compute. exact I. }
  split; [exact Hdistinct|].
  destruct (steam_error_diagnosis booted "RateLimitExceeded" 84 Hdistinct)
    as (w1 & Hrun & Htrace & _ & Hrate & _).
  exists w1. split; [exact Hrun|].
  rewrite Htrace. cbn [head]. now rewrite Hrate.
Defined.

(** ** The 2 minute timer *)

(** C10: when the 2 minute timer comes due while [gcConnectStartTime] is
    still [null], or after the run was finalized, its callback does
    nothing: it returns the world it was given, and the delivery of the
    timer changes nothing but the clock and the timer's own entry. *)
Theorem gc_timeout_without_effect (w : World) :
  gcConnectStartTime w = None \/ testCompleted w = true ->
  gc_timeout_cb w = Continue tt w /\
  forall id d t,
    timers w !! id = Some {| deadline := d; callback := GcTimeoutCb |} ->
    d <= Z.max (now w) t ->
    dispatch t (TimerDue id) (Continue tt w) =
      Continue tt (disarm id (with_now (Z.max (now w) t) w)).
Proof.
  intros Hguard.
  assert (Hoff : negb (testCompleted w) && time_truthy (gcConnectStartTime w)
                 = false).
  { destruct Hguard as [-> | ->]; [apply andb_false_r|reflexivity]. }
  split.
  - unfold gc_timeout_cb, bind, get. now rewrite Hoff.
  - intros id d t Harmed Hdue. unfold dispatch. cbn [handle].
    unfold fire, bind, get, modify. cbn [timers now with_now].
    rewrite Harmed. cbn [deadline callback run_callback].
    apply Z.leb_le in Hdue. rewrite Hdue.
    unfold gc_timeout_cb, bind, get.
    cbn [testCompleted gcConnectStartTime disarm with_timers with_now].
    now rewrite Hoff.
Qed.

Lemma gc_timeout_without_effect_witness :
  (gcConnectStartTime booted = None \/ testCompleted booted = true) /\
  gc_timeout_cb booted = Continue tt booted /\
  dispatch 120000 (TimerDue 1) (Continue tt booted) =
    Continue tt (disarm 1 (with_now (Z.max (now booted) 120000) booted)).
Proof.
  assert (Hguard : gcConnectStartTime booted = None \/
                   testCompleted booted = true) by (left; reflexivity).
  split; [exact Hguard|].
  destruct (gc_timeout_without_effect booted Hguard) as [Hcb Hfire].
  split; [exact Hcb|].
  apply (Hfire 1%nat 120000 120000); [reflexivity|vm_compute; discriminate].
Defined.

(** ** loadConfig *)

Lemma check_required_missing (fields : list string)
  (cfg : gmap string JValue) (w : World) (field : string) :
  In field fields ->
  prop_truthy (cfg !! field) = false ->
  exists f,
    In f fields /\ prop_truthy (cfg !! f) = false /\
    check_required fields cfg w =
      Halt 1 (with_trace
                (Log ("❌ Missing required field in config.json: " +:+ f)
                 :: trace w) w).
Proof.
  induction fields as [|g rest IH]; intros Hin Hfalsy; [destruct Hin|].
  cbn [check_required].
  destruct (prop_truthy (cfg !! g)) eqn:Hg.
  - destruct Hin as [->|Hin]; [congruence|].
    destruct (IH Hin Hfalsy) as (f & Hf & Hff & Hrun).
    exists f. split; [now right|]. now split.
  - exists g. split; [now left|]. split; [exact Hg|]. reflexivity.
Qed.

Lemma check_required_present (fields : list string)
  (cfg : gmap string JValue) (w : World) :
  (forall f, In f fields -> prop_truthy (cfg !! f) = true) ->
  check_required fields cfg w = Continue tt w.
Proof.
  induction fields as [|g rest IH]; intros Hall; [reflexivity|].
  cbn [check_required]. rewrite (Hall g) by now left.
  apply IH. intros f Hf. apply Hall. now right.
Qed.

(** C8, as stated, fails: a configuration with the three credentials and
    no [test_steam_id] is accepted, and the process starts. *)
Lemma test_steam_id_not_required :
  exit_code (boot sample_env 0 (FileParsed (DocObject sample_config))) = None /\
  ~ all_named_values_required.
Proof.
  split; [reflexivity|]. intros Hall.
  destruct (Hall sample_env 0 sample_config "test_steam_id") as [w' Hrun].
  - cbn. tauto.
  - reflexivity.
  - vm_compute in Hrun. discriminate Hrun.
Qed.

(** C8, amended: [steam_username], [steam_password] and [shared_secret]
    are required: when one of them is absent or falsy the process prints
    the missing field and exits with code 1 before any timer is armed or
    any client call is made, and no report is printed; so it does when
    [config.json] is missing, unreadable or not an object.  The
    [test_steam_id] is optional: when it is absent the default
    76561199556731347 is used and loading succeeds. *)
Theorem config_requirements (e : Env) (t0 : Z) (cfg : gmap string JValue) :
  (forall field,
     In field required ->
     prop_truthy (cfg !! field) = false ->
     exists f,
       In f required /\ prop_truthy (cfg !! f) = false /\
       boot e t0 (FileParsed (DocObject cfg)) =
         Halt 1 (with_trace
                   [Log ("❌ Missing required field in config.json: " +:+ f)]
                   (initial_world e t0))) /\
  (forall file,
     is_object file = false ->
     exists w', boot e t0 file = Halt 1 w' /\
                timers w' = ∅ /\ reports w' = 0%nat /\ logoffs w' = 0%nat) /\
  ((forall field, In field required -> prop_truthy (cfg !! field) = true) ->
   prop_truthy (cfg !! "test_steam_id") = false ->
   loadConfig (FileParsed (DocObject cfg)) (initial_world e t0) =
     Continue (<["test_steam_id" := JStr default_test_steam_id]> cfg)
       (initial_world e t0)).
Proof.
  split; [|split].
  - intros field Hin Hfalsy.
    destruct (check_required_missing required cfg (initial_world e t0) field
                Hin Hfalsy) as (f & Hf & Hff & Hrun).
    exists f. split; [exact Hf|]. split; [exact Hff|].
    unfold boot, script, loadConfig, bind. now rewrite Hrun.
  - intros file Hfile. unfold boot, script, bind.
    destruct file as [|message|[cfg'| |]]; try discriminate Hfile;
      eexists; (split; [reflexivity|]); repeat split; reflexivity.
  - intros Hall Hnone. unfold loadConfig, bind.
    rewrite (check_required_present required cfg _ Hall), Hnone.
    reflexivity.
Qed.

Lemma config_requirements_witness :
  In "shared_secret" required /\
  prop_truthy (delete "shared_secret" sample_config !! "shared_secret") = false /\
  exists f,
    In f required /\
    boot sample_env 0 (FileParsed (DocObject (delete "shared_secret" sample_config))) =
      Halt 1 (with_trace
                [Log ("❌ Missing required field in config.json: " +:+ f)]
                (initial_world sample_env 0)).
Proof.
  assert (Hin : In "shared_secret" required) by (cbn; tauto).
  assert (Hfalsy : prop_truthy (delete "shared_secret" sample_config
                                  !! "shared_secret") = false)
    by reflexivity.
  split; [exact Hin|]. split; [exact Hfalsy|].
  destruct (config_requirements sample_env 0
              (delete "shared_secret" sample_config)) as [Hreq _].
  destruct (Hreq "shared_secret" Hin Hfalsy) as (f & Hf & _ & Hrun).
  exists f. now split.
Defined.

(** ** When the 2 minute timer is due *)

(** C9, at a login that takes 100 seconds: the Game Coordinator
    connection starts at 100000, and the 2 minute timer, armed when the
    script started, is due at 120000; delivered then, 20 seconds into
    the connection attempt, it finalizes the run as [GC_TIMEOUT]. *)
Theorem gc_timer_counts_from_process_start :
  gcConnectStartTime late_login = Some 100000 /\
  timers late_login !! 1%nat =
    Some {| deadline := 120000; callback := GcTimeoutCb |} /\
  exists w1,
    dispatch 120000 (TimerDue 1) (Continue tt late_login) = Continue tt w1 /\
    testCompleted w1 = true /\
    In (Log "❌ GC Connection Timeout (2 minutes)") (trace w1) /\
    In (Log "   - Result: GC_TIMEOUT") (trace w1).
Proof.
  split; [reflexivity|]. split; [reflexivity|].
  eexists. split; [vm_compute; reflexivity|].
  split; [reflexivity|]. split; cbn [trace In]; tauto.
Qed.

(** ** The profile request *)

(** The callback of the request cancels the request's timer, prints what
    it received and calls [completeTest]. *)
Lemma profile_callback_run (rq : nat) (start : Z) (profile : option Profile)
  (w : World) :
  exists lines,
    forallb (fun e => negb (is_banner e)) lines = true /\
    profile_callback rq start profile w =
      completeTest (result_of_payload profile)
        (with_trace (lines ++ ClearTimeout rq :: trace w)
           (with_timers (delete rq (timers w)) (next_timer w) w)).
Proof.
  destruct profile as [p|]; unfold profile_callback; js_run.
  - eexists [_; _; _; _; _; _]. split; [|reflexivity]. reflexivity.
  - eexists [_]. split; [|reflexivity]. reflexivity.
Qed.

Lemma reports_app (lines tr : list Effect) :
  forallb (fun e => negb (is_banner e)) lines = true ->
  length (List.filter is_banner (lines ++ tr)) =
  length (List.filter is_banner tr).
Proof.
  induction lines as [|e lines IH]; intros Hlines; [reflexivity|].
  cbn [forallb] in Hlines. apply andb_prop in Hlines as [He Hlines].
  cbn [app List.filter]. destruct (is_banner e); [discriminate He|].
  now apply IH.
Qed.

(** C6: when the answer to a pending profile request arrives, the
    request's own timer is cancelled first, what came is printed, and
    [completeTest] is called with [SUCCESS] when a profile came and with
    [NO_DATA] when none came; in a run that is not finalized this call
    finalizes the run with that result, and the exit timer holds it. *)
Theorem profile_response_result (w : World) (t : Z) (rq : nat) (start : Z)
  (profile : option Profile) :
  requests w !! rq = Some start ->
  rq <> next_timer w ->
  exists wm lines,
    dispatch t (ProfileResponse rq profile) (Continue tt w) =
      completeTest (result_of_payload profile) wm /\
    trace wm = lines ++ ClearTimeout rq :: trace w /\
    timers wm = delete rq (timers w) /\
    testCompleted wm = testCompleted w /\
    reports wm = reports w /\
    (testCompleted w = false ->
     exists w1 report,
       completeTest (result_of_payload profile) wm = Continue tt w1 /\
       testCompleted w1 = true /\
       timers w1 !! rq = None /\
       timers w1 !! next_timer w =
         Some {| deadline := Z.max (now w) t + 1000;
                 callback := ExitCb (result_of_payload profile) |} /\
       trace w1 = report ++ ClearTimeout rq :: trace w /\
       In (Log completed_banner) report /\
       In (Log ("   - Result: " +:+ result_of_payload profile)) report /\
       reports w1 = S (reports w)).
Proof.
  intros Hpending Hrq. unfold dispatch. cbn [handle].
  unfold respond, bind, get, modify. cbn [requests with_now]. rewrite Hpending.
  match goal with
  | |- context [profile_callback rq start profile ?x] => set (w0 := x)
  end.
  destruct (profile_callback_run rq start profile w0) as (lines & Hlines & ->).
  match goal with
  | |- context [completeTest _ ?x] => set (wm := x)
  end.
  assert (Hquiet : reports wm = reports w).
  { unfold reports. cbn [wm trace with_trace].
    now rewrite (reports_app lines (ClearTimeout rq :: trace w0) Hlines). }
  exists wm, lines. split; [reflexivity|]. split; [reflexivity|].
  split; [reflexivity|]. split; [reflexivity|]. split; [exact Hquiet|].
  intros Hfresh.
  destruct (completeTest_fresh (result_of_payload profile) wm Hfresh)
    as (w1 & Hrun & Hfin).
  destruct (fin_trace _ _ _ Hfin) as (added & Htrace & _ & Hbanner & Hres & _).
  exists w1, (added ++ lines). repeat split.
  - exact Hrun.
  - apply Hfin.
  - rewrite (fin_timers _ _ _ Hfin).
    cbn [wm w0 next_timer with_trace with_timers with_requests with_now
         timers testTimeout].
    rewrite lookup_insert_ne by congruence.
    destruct (decide (testTimeout w = rq)) as [->|Hne].
    + apply lookup_delete_eq.
    + rewrite lookup_delete_ne by exact Hne. apply lookup_delete_eq.
  - rewrite (fin_timers _ _ _ Hfin). apply lookup_insert_eq.
  - rewrite Htrace. cbn [wm trace with_trace]. now rewrite <- app_assoc.
  - apply in_or_app. now left.
  - apply in_or_app. now left.
  - now rewrite (fin_reports _ _ _ Hfin), Hquiet.
Qed.

Lemma profile_response_result_witness :
  requests probing !! 2%nat = Some 350 /\
  2%nat <> next_timer probing /\
  exists wm lines,
    dispatch 650 (ProfileResponse 2 (Some sample_profile)) (Continue tt probing)
      = completeTest "SUCCESS" wm /\
    trace wm = lines ++ ClearTimeout 2 :: trace probing /\
    timers wm = delete 2%nat (timers probing).
Proof.
  split; [reflexivity|]. split; [vm_compute; discriminate|].
  destruct (profile_response_result probing 650 2 350 (Some sample_profile))
    as (wm & lines & Hrun & Htrace & Htimers & _).
  - reflexivity.
  - vm_compute; discriminate.
  - exists wm, lines. now repeat split.
Defined.

Lemma request_timeout_cb_run (w : World) :
  request_timeout_cb w =
    completeTest "TIMEOUT"
      (with_trace
         ([Log "   - Network issues";
           Log "   - Steam ID is invalid";
           Log "   - GC is throttling requests (soft ban)";
           Log "🔍 Possible causes:";
           Log "❌ Profile Request Timeout (30s)"] ++ trace w) w).
Proof. reflexivity. Qed.

Lemma testProfileRequest_run (w0 : World) :
  new_SteamID (env w0) (config w0 !! "test_steam_id") = Returned tt ->
  exists w,
    testProfileRequest w0 = Continue tt w /\
    timers w =
      <[next_timer w0 :=
          {| deadline := now w0 + 30000; callback := RequestTimeoutCb |}]>
        (timers w0) /\
    next_timer w = S (next_timer w0) /\
    requests w = <[next_timer w0 := now w0]> (requests w0) /\
    now w = now w0 /\
    testCompleted w = testCompleted w0 /\
    reports w = reports w0.
Proof.
  intros Hid. unfold testProfileRequest, bind, get. rewrite Hid.
  eexists. split; [reflexivity|]. repeat split.
Qed.

Lemma testProfileRequest_throws (w0 : World) (message : string) :
  new_SteamID (env w0) (config w0 !! "test_steam_id") = Threw message ->
  testProfileRequest w0 =
    Halt 1 (with_trace (Uncaught message :: trace w0) w0).
Proof.
  intros Hid. unfold testProfileRequest, bind, get. now rewrite Hid.
Qed.

(** C7: in a run that is not finalized, the timer of a profile request
    is not run before it is due; delivered at or after its due time it
    prints the timeout, finalizes the run with the result [TIMEOUT] and
    the soft ban diagnosis, and the exit timer armed then ends the
    process with code 1.  The timer is the one [testProfileRequest]
    arms, due 30000 ms after the request starts, whenever the
    [SteamID] of the target is constructed. *)
Theorem request_timeout_finalizes (w : World) (id : nat) (d : Z) :
  testCompleted w = false ->
  timers w !! id = Some {| deadline := d; callback := RequestTimeoutCb |} ->
  (forall t, Z.max (now w) t < d ->
     dispatch t (TimerDue id) (Continue tt w) =
       Continue tt (with_now (Z.max (now w) t) w)) /\
  (forall t, d <= Z.max (now w) t ->
     exists w1,
       dispatch t (TimerDue id) (Continue tt w) = Continue tt w1 /\
       testCompleted w1 = true /\
       reports w1 = S (reports w) /\
       In (Log "❌ Profile Request Timeout (30s)") (trace w1) /\
       In (Log "   - GC is throttling requests (soft ban)") (trace w1) /\
       In (Log "   - Result: TIMEOUT") (trace w1) /\
       In (Log "🚫 SOFT BAN DETECTED") (trace w1) /\
       timers w1 !! next_timer w =
         Some {| deadline := Z.max (now w) t + 1000;
                 callback := ExitCb "TIMEOUT" |} /\
       forall t', Z.max (now w) t + 1000 <= t' ->
         exists w2,
           dispatch t' (TimerDue (next_timer w)) (Continue tt w1) =
             Halt 1 w2) /\
  (forall w0,
     new_SteamID (env w0) (config w0 !! "test_steam_id") = Returned tt ->
     exists w',
       testProfileRequest w0 = Continue tt w' /\
       timers w' !! next_timer w0 =
         Some {| deadline := now w0 + 30000;
                 callback := RequestTimeoutCb |}).
Proof.
  intros Hfresh Harmed. split; [|split].
  - intros t Hearly. unfold dispatch. cbn [handle].
    unfold fire, bind, get. cbn [timers with_now now].
    rewrite Harmed. cbn [deadline].
    destruct (Z.leb_spec d (Z.max (now w) t)) as [Hle|_]; [lia|reflexivity].
  - intros t Hdue. unfold dispatch. cbn [handle].
    unfold fire, bind, get, modify. cbn [timers with_now now].
    rewrite Harmed. cbn [deadline callback run_callback].
    destruct (Z.leb_spec d (Z.max (now w) t)) as [_|Hlt]; [|lia].
    rewrite request_timeout_cb_run.
    match goal with
    | |- context [completeTest _ ?x] => set (wm := x)
    end.
    destruct (completeTest_fresh "TIMEOUT" wm Hfresh) as (w1 & Hfin1 & Hfin).
    destruct (fin_trace _ _ _ Hfin)
      as (added & Htrace & _ & _ & Hres & _ & Hban).
    exists w1. split; [exact Hfin1|]. split; [apply Hfin|].
    split; [now rewrite (fin_reports _ _ _ Hfin)|].
    assert (Hexit : timers w1 !! next_timer w =
                      Some {| deadline := Z.max (now w) t + 1000;
                              callback := ExitCb "TIMEOUT" |}).
    { rewrite (fin_timers _ _ _ Hfin). apply lookup_insert_eq. }
    repeat split.
    + rewrite Htrace. apply in_or_app. right. cbn [wm trace with_trace].
      find_here.
    + rewrite Htrace. apply in_or_app. right. cbn [wm trace with_trace].
      find_here.
    + rewrite Htrace. apply in_or_app. now left.
    + rewrite Htrace. apply in_or_app. left. now apply Hban.
    + exact Hexit.
    + intros t' Hlate. unfold dispatch. cbn [handle].
      unfold fire, bind, get, modify. cbn [timers now with_now].
      rewrite Hexit. cbn [deadline callback run_callback].
      rewrite (fin_now _ _ _ Hfin). cbn [wm now with_trace with_now disarm
        with_timers].
      destruct (Z.leb_spec (Z.max (now w) t + 1000)
                  (Z.max (Z.max (now w) t) t')) as [_|Hlt']; [|lia].
      eexists. reflexivity.
  - intros w0 Hid.
    destruct (testProfileRequest_run w0 Hid) as (w' & Hrun & Htimers & _).
    exists w'. split; [exact Hrun|]. rewrite Htimers. apply lookup_insert_eq.
Qed.

Lemma request_timeout_finalizes_witness :
  testCompleted probing = false /\
  timers probing !! 2%nat =
    Some {| deadline := 30350; callback := RequestTimeoutCb |} /\
  exists w1 w2,
    dispatch 30350 (TimerDue 2) (Continue tt probing) = Continue tt w1 /\
    testCompleted w1 = true /\
    In (Log "   - Result: TIMEOUT") (trace w1) /\
    In (Log "🚫 SOFT BAN DETECTED") (trace w1) /\
    dispatch 31350 (TimerDue (next_timer probing)) (Continue tt w1) =
      Halt 1 w2.
Proof.
  split; [reflexivity|]. split; [reflexivity|].
  destruct (request_timeout_finalizes probing 2 30350 eq_refl eq_refl)
    as (_ & Hfire & _).
  destruct (Hfire 30350) as (w1 & Hrun & Hflag & _ & _ & _ & Hres & Hban & _ & Hexit);
    [vm_compute; discriminate|].
  destruct (Hexit 31350) as [w2 Hw2]; [vm_compute; discriminate|].
  exists w1, w2. split; [exact Hrun|]. split; [exact Hflag|].
  split; [exact Hres|]. split; [exact Hban|exact Hw2].
Defined.

(** ** Two runs of the specification, start to exit *)

Example happy_path_scenario :
  exit_code
    (run [(50, LoggedOn "76561198000000001" (Some "alice"));
          (150, ConnectedToGC);
          (350, ProfileResponse 2 (Some sample_profile));
          (1350, TimerDue 3)]
       (boot sample_env 0 (FileParsed (DocObject sample_config))))
  = Some 0.
Proof. vm_compute. reflexivity. Qed.

Example silent_throttle_scenario :
  let p := run [(50, LoggedOn "76561198000000001" (Some "alice"));
                (150, ConnectedToGC);
                (30150, TimerDue 2);
                (31150, TimerDue 3)]
             (boot sample_env 0 (FileParsed (DocObject sample_config))) in
  exit_code p = Some 1 /\
  In (Log "   - Result: TIMEOUT") (trace (world_of p)) /\
  In (Log "🚫 SOFT BAN DETECTED") (trace (world_of p)).
Proof. vm_compute. tauto. Qed.

(** * Beyond the claims *)

(** ** Startup *)

Lemma check_required_cases (fields : list string) (cfg : gmap string JValue)
  (w : World) :
  (check_required fields cfg w = Continue tt w /\
   forall f, In f fields -> prop_truthy (cfg !! f) = true) \/
  (exists pre f post,
     fields = pre ++ f :: post /\
     (forall g, In g pre -> prop_truthy (cfg !! g) = true) /\
     prop_truthy (cfg !! f) = false /\
     check_required fields cfg w =
       Halt 1 (with_trace
                 (Log ("❌ Missing required field in config.json: " +:+ f)
                  :: trace w) w)).
Proof.
  induction fields as [|g rest IH]; cbn [check_required].
  - left. split; [reflexivity|]. intros f [].
  - destruct (prop_truthy (cfg !! g)) eqn:Hg.
    + destruct IH as [[Hrun Hall]|(pre & f & post & -> & Hpre & Hf & Hrun)].
      * left. split; [exact Hrun|]. intros f [<-|Hin]; auto.
      * right. exists (g :: pre), f, post. split; [reflexivity|].
        split; [|now split]. intros h [<-|Hin]; auto.
    + right. exists [], g, rest. split; [reflexivity|].
      split; [intros h []|]. now split.
Qed.

Lemma split_unique (pre pre' post post' : list string) (f f' : string)
  (cfg : gmap string JValue) :
  pre ++ f :: post = pre' ++ f' :: post' ->
  (forall g, In g pre -> prop_truthy (cfg !! g) = true) ->
  (forall g, In g pre' -> prop_truthy (cfg !! g) = true) ->
  prop_truthy (cfg !! f) = false ->
  prop_truthy (cfg !! f') = false ->
  f = f'.
Proof.
  revert pre'. induction pre as [|a pre IH]; intros [|a' pre'] Heq Hpre Hpre' Hf Hf'.
  - now injection Heq.
  - injection Heq as -> _. rewrite Hpre' in Hf by now left. discriminate Hf.
  - injection Heq as -> _. rewrite Hpre in Hf' by now left. discriminate Hf'.
  - injection Heq as -> Heq. apply (IH pre' Heq); auto.
    + intros g Hg. apply Hpre. now right.
    + intros g Hg. apply Hpre'. now right.
Qed.

(** X1: validation reports the first falsy field in the order
    [steam_username], [steam_password], [shared_secret], and that one
    only: the process prints its name and exits with code 1 whatever
    the later fields hold. *)
Theorem first_missing_field_reported (e : Env) (t0 : Z)
  (cfg : gmap string JValue) (pre post : list string) (f : string) :
  required = pre ++ f :: post ->
  (forall g, In g pre -> prop_truthy (cfg !! g) = true) ->
  prop_truthy (cfg !! f) = false ->
  boot e t0 (FileParsed (DocObject cfg)) =
    Halt 1 (with_trace
              [Log ("❌ Missing required field in config.json: " +:+ f)]
              (initial_world e t0)).
Proof.
  intros Hsplit Hpre Hf.
  destruct (check_required_cases required cfg (initial_world e t0))
    as [[_ Hall]|(pre' & f' & post' & Hsplit' & Hpre' & Hf' & Hrun)].
  - rewrite Hall in Hf; [discriminate Hf|]. rewrite Hsplit.
    apply in_or_app. right. now left.
  - rewrite Hsplit in Hsplit'.
    rewrite (split_unique pre pre' post post' f f' cfg Hsplit' Hpre Hpre' Hf Hf').
    unfold boot, script, loadConfig, bind. now rewrite Hrun.
Qed.

Lemma first_missing_field_reported_witness :
  boot sample_env 0
    (FileParsed (DocObject (delete "steam_password"
                              (delete "shared_secret" sample_config)))) =
    Halt 1 (with_trace
              [Log "❌ Missing required field in config.json: steam_password"]
              (initial_world sample_env 0)).
Proof.
  apply (first_missing_field_reported sample_env 0
           (delete "steam_password" (delete "shared_secret" sample_config))
           ["steam_username"] ["shared_secret"] "steam_password").
  - reflexivity.
  - intros g [<-|[]]. reflexivity.
  - reflexivity.
Defined.

Lemma loadConfig_cases (file : ConfigFile) (w : World) :
  (exists cfg,
     valid_config file cfg /\ loadConfig file w = Continue (loaded cfg) w) \/
  ((forall cfg, ~ valid_config file cfg) /\
   exists lines,
     forallb (fun l => negb (String.eqb l completed_banner)) lines = true /\
     loadConfig file w = Halt 1 (with_trace (map Log lines ++ trace w) w)).
Proof.
  destruct file as [|message|[cfg| |]]; cbn [loadConfig].
  - right. split; [intros cfg [Hfile _]; discriminate Hfile|].
    now eexists [_; _; _].
  - right. split; [intros cfg [Hfile _]; discriminate Hfile|].
    now eexists [_].
  - unfold bind.
    destruct (check_required_cases required cfg w)
      as [[Hrun Hall]|(pre & f & post & Hsplit & _ & Hf & Hrun)];
      rewrite Hrun.
    + left. exists cfg. split; [now split|]. unfold loaded.
      now destruct (prop_truthy (cfg !! "test_steam_id")).
    + right. split; [|now eexists [_]].
      intros cfg' [[= <-] Hall]. rewrite Hall in Hf; [discriminate Hf|].
      rewrite Hsplit. apply in_or_app. right. now left.
  - right. split; [intros cfg [Hfile _]; discriminate Hfile|].
    now eexists [_].
  - right. split; [intros cfg [Hfile _]; discriminate Hfile|].
    unfold bind.
    destruct (check_required_cases required ∅ w)
      as [[_ Hall]|(pre & f & post & _ & _ & _ & Hrun)].
    + specialize (Hall "steam_username" (or_introl eq_refl)).
      rewrite lookup_empty in Hall. discriminate Hall.
    + rewrite Hrun. now eexists [_].
Qed.

Lemma loaded_truthy (cfg : gmap string JValue) :
  prop_truthy (loaded cfg !! "test_steam_id") = true.
Proof.
  unfold loaded. destruct (prop_truthy (cfg !! "test_steam_id")) eqn:Hid.
  - exact Hid.
  - now rewrite lookup_insert_eq.
Qed.

Lemma loaded_other (cfg : gmap string JValue) (k : string) :
  k <> "test_steam_id" -> loaded cfg !! k = cfg !! k.
Proof.
  intros Hk. unfold loaded.
  destruct (prop_truthy (cfg !! "test_steam_id")); [reflexivity|].
  now rewrite lookup_insert_ne.
Qed.

(** X2: when [loadConfig] returns, it has printed nothing, the file held
    an object, all four named values are truthy in the configuration it
    returns, and that configuration is the file's except that a falsy or
    absent [test_steam_id] was replaced by the default. *)
Theorem loadConfig_returns (file : ConfigFile) (w w1 : World)
  (cfg1 : gmap string JValue) :
  loadConfig file w = Continue cfg1 w1 ->
  w1 = w /\
  (forall f, In f named_values -> prop_truthy (cfg1 !! f) = true) /\
  exists cfg,
    file = FileParsed (DocObject cfg) /\
    (forall k, k <> "test_steam_id" -> cfg1 !! k = cfg !! k) /\
    (prop_truthy (cfg !! "test_steam_id") = true -> cfg1 = cfg) /\
    (prop_truthy (cfg !! "test_steam_id") = false ->
     cfg1 !! "test_steam_id" = Some (JStr default_test_steam_id)).
Proof.
  intros Hrun.
  destruct (loadConfig_cases file w)
    as [(cfg & [Hfile Hall] & Hok)|[_ (lines & _ & Hhalt)]];
    [|rewrite Hhalt in Hrun; discriminate Hrun].
  rewrite Hok in Hrun. injection Hrun as <- <-.
  split; [reflexivity|]. split.
  - intros f [<-|[<-|[<-|[<-|[]]]]];
      first [apply loaded_truthy
            | rewrite loaded_other by discriminate; apply Hall; cbn; tauto].
  - exists cfg. split; [exact Hfile|]. split; [apply loaded_other|].
    unfold loaded. split; intros ->; [reflexivity|apply lookup_insert_eq].
Qed.

Lemma loadConfig_returns_witness :
  exists cfg1,
    loadConfig (FileParsed (DocObject sample_config)) booted =
      Continue cfg1 booted /\
    cfg1 !! "test_steam_id" = Some (JStr default_test_steam_id) /\
    cfg1 !! "steam_username" = Some (JStr "alice").
Proof.
  assert (Hrun : loadConfig (FileParsed (DocObject sample_config)) booted =
                   Continue (loaded sample_config) booted)
    by (vm_compute; reflexivity).
  exists (loaded sample_config). split; [exact Hrun|].
  destruct (loadConfig_returns _ _ _ _ Hrun)
    as (_ & _ & cfg & [= <-] & Hother & _ & Hdefault).
  split; [apply Hdefault; reflexivity|].
  rewrite Hother by discriminate. reflexivity.
Defined.

(** The script once the configuration is loaded: it prints the banner,
    arms its two timers, and logs on unless the two-factor code cannot
    be generated. *)
Lemma boot_after_config (e : Env) (t0 : Z) (file : ConfigFile)
  (cfg : gmap string JValue) :
  loadConfig file (initial_world e t0) = Continue cfg (initial_world e t0) ->
  match totp_generateAuthCode e (cfg !! "shared_secret") with
  | Returned code =>
      exists w, boot e t0 file = Continue tt w /\ started e t0 cfg code w
  | Threw message =>
      exists w,
        boot e t0 file = Halt 1 w /\
        timers w = startup_timers t0 /\
        testCompleted w = false /\
        trace w =
          Log "🔍 Check your SHARED_SECRET value"
          :: Log ("❌ Failed to generate 2FA code: " +:+ message)
          :: Log "🔐 Generating 2FA code..."
          :: SetTimeout 1 120000 :: SetTimeout 0 300000
          :: banner_lines e cfg
  end.
Proof.
  intros Hload.
  destruct (totp_generateAuthCode e (cfg !! "shared_secret"))
    as [code|message] eqn:Htotp;
    unfold boot, script; unfold bind at 1; rewrite Hload;
    unfold startTest, generateAuthCode, initial_world; js_run;
    rewrite Htotp; js_run; eexists; (split; [reflexivity|]).
  - split; reflexivity.
  - repeat split.
Qed.

Lemma boot_cases (e : Env) (t0 : Z) (file : ConfigFile) :
  (exists cfg code w,
     valid_config file cfg /\
     totp_generateAuthCode e (cfg !! "shared_secret") = Returned code /\
     boot e t0 file = Continue tt w /\ started e t0 (loaded cfg) code w) \/
  (exists cfg message w,
     valid_config file cfg /\
     totp_generateAuthCode e (cfg !! "shared_secret") = Threw message /\
     boot e t0 file = Halt 1 w /\
     timers w = startup_timers t0 /\
     testCompleted w = false /\
     reports w = 0%nat /\
     forallb (fun x => negb (is_client x)) (trace w) = true) \/
  ((forall cfg, ~ valid_config file cfg) /\
   exists lines,
     forallb (fun l => negb (String.eqb l completed_banner)) lines = true /\
     boot e t0 file =
       Halt 1 (with_trace (map Log lines) (initial_world e t0))).
Proof.
  destruct (loadConfig_cases file (initial_world e t0))
    as [(cfg & Hvalid & Hload)|[Hinvalid (lines & Hlines & Hhalt)]].
  - pose proof (boot_after_config e t0 file (loaded cfg) Hload) as Hboot.
    rewrite loaded_other in Hboot by discriminate.
    destruct (totp_generateAuthCode e (cfg !! "shared_secret"))
      as [code|message] eqn:Htotp.
    + left. destruct Hboot as (w & Hrun & Hstarted). now exists cfg, code, w.
    + right. left. destruct Hboot as (w & Hrun & Htimers & Hflag & Htrace).
      exists cfg, message, w.
      split; [exact Hvalid|]. split; [exact Htotp|]. split; [exact Hrun|].
      split; [exact Htimers|]. split; [exact Hflag|]. split.
      * unfold reports. rewrite Htrace. reflexivity.
      * rewrite Htrace. reflexivity.
  - right. right. split; [exact Hinvalid|]. exists lines.
    split; [exact Hlines|]. unfold boot, script, bind. rewrite Hhalt. cbn [initial_world trace].
    now rewrite app_nil_r.
Qed.

(** X3: the script gets past its startup exactly when [config.json]
    holds an object whose three required fields are truthy and the
    two-factor code is generated from its [shared_secret] without an
    exception. *)
Theorem startup_succeeds_iff (e : Env) (t0 : Z) (file : ConfigFile) :
  (exists w, boot e t0 file = Continue tt w) <->
  (exists cfg code,
     valid_config file cfg /\
     totp_generateAuthCode e (cfg !! "shared_secret") = Returned code).
Proof.
  destruct (boot_cases e t0 file)
    as [(cfg & code & w & Hvalid & Htotp & Hrun & _)
       |[(cfg & message & w & Hvalid & Htotp & Hrun & _)
        |[Hinvalid (lines & _ & Hrun)]]].
  - split; [intros _; now exists cfg, code|intros _; now exists w].
  - split.
    + intros [w' Hrun']. rewrite Hrun in Hrun'. discriminate Hrun'.
    + intros (cfg' & code & [Hfile' _] & Htotp').
      destruct Hvalid as [Hfile _]. rewrite Hfile in Hfile'.
      injection Hfile' as <-. rewrite Htotp in Htotp'. discriminate Htotp'.
  - split.
    + intros [w' Hrun']. rewrite Hrun in Hrun'. discriminate Hrun'.
    + intros (cfg' & code & Hvalid & _). destruct (Hinvalid cfg' Hvalid).
Qed.

(** X4: when the script gets past its startup at time [t0], exactly two
    timers are armed, both counted from [t0]: the 5 minute timer under
    handle 0, kept in [testTimeout], and the 2 minute timer under
    handle 1; the run is not finalized, [gcConnectStartTime] is [null],
    no profile request is pending, and the last thing done is one
    [logOn] with the configured account name and password and the
    generated code. *)
Theorem startup_state (e : Env) (t0 : Z) (file : ConfigFile) (w : World) :
  boot e t0 file = Continue tt w ->
  exists cfg code,
    valid_config file cfg /\
    totp_generateAuthCode e (cfg !! "shared_secret") = Returned code /\
    timers w = startup_timers t0 /\
    testTimeout w = 0%nat /\
    next_timer w = 2%nat /\
    testStartTime w = t0 /\
    gcConnectStartTime w = None /\
    testCompleted w = false /\
    requests w = ∅ /\
    config w = loaded cfg /\
    head (trace w) =
      Some (Client (LogOn (prop_text (cfg !! "steam_username"))
                      (prop_text (cfg !! "steam_password")) code)) /\
    length (List.filter is_client (trace w)) = 1%nat.
Proof.
  intros Hrun.
  destruct (boot_cases e t0 file)
    as [(cfg & code & w' & Hvalid & Htotp & Hrun' & Hst)
       |[(cfg & message & w' & _ & _ & Hrun' & _)
        |[_ (lines & _ & Hrun')]]];
    rewrite Hrun in Hrun'; try discriminate Hrun'.
  injection Hrun' as <-. exists cfg, code.
  split; [exact Hvalid|]. split; [exact Htotp|].
  destruct Hst. repeat split; try assumption.
  - rewrite st_trace0. cbn [head]. now rewrite !loaded_other by discriminate.
  - rewrite st_trace0. reflexivity.
Qed.

Lemma startup_state_witness :
  boot sample_env 0 (FileParsed (DocObject sample_config)) =
    Continue tt booted /\
  timers booted = startup_timers 0 /\
  testTimeout booted = 0%nat /\
  next_timer booted = 2%nat.
Proof.
  assert (Hrun : boot sample_env 0 (FileParsed (DocObject sample_config)) =
                   Continue tt booted) by (vm_compute; reflexivity).
  split; [exact Hrun|].
  destruct (startup_state _ _ _ _ Hrun)
    as (cfg & code & _ & _ & Htimers & Hhandle & Hnext & _).
  split; [exact Htimers|]. split; [exact Hhandle|exact Hnext].
Defined.

(** X5: when the script ends the process during startup, the exit code
    is 1, the run is not finalized, no report was printed and no call
    was made to the Steam client: a configuration or two-factor failure
    never reaches [logOn]. *)
Theorem startup_failure (e : Env) (t0 : Z) (file : ConfigFile)
  (code : Z) (w : World) :
  boot e t0 file = Halt code w ->
  code = 1 /\
  testCompleted w = false /\
  reports w = 0%nat /\
  forallb (fun x => negb (is_client x)) (trace w) = true.
Proof.
  intros Hrun.
  destruct (boot_cases e t0 file)
    as [(cfg & c & w' & _ & _ & Hrun' & _)
       |[(cfg & message & w' & _ & _ & Hrun' & _ & Hflag & Hreports & Hcalls)
        |[_ (lines & Hlines & Hrun')]]];
    rewrite Hrun in Hrun'; try discriminate Hrun'; injection Hrun' as -> ->.
  - now repeat split.
  - split; [reflexivity|]. split; [reflexivity|].
    clear Hrun. cbn [trace with_trace initial_world]. unfold reports.
    cbn [trace with_trace]. split.
    + induction lines as [|l lines IH]; [reflexivity|].
      cbn [forallb] in Hlines. apply andb_prop in Hlines as [Hl Hlines].
      cbn [map List.filter is_banner].
      apply negb_true_iff in Hl. rewrite Hl. now apply IH.
    + clear Hlines. induction lines as [|l lines IH]; [reflexivity|exact IH].
Qed.

Lemma startup_failure_witness :
  boot sample_env 0 FileMissing =
    Halt 1 (world_of (boot sample_env 0 FileMissing)) /\
  reports (world_of (boot sample_env 0 FileMissing)) = 0%nat.
Proof.
  assert (Hrun : boot sample_env 0 FileMissing =
                   Halt 1 (world_of (boot sample_env 0 FileMissing)))
    by reflexivity.
  split; [exact Hrun|].
  destruct (startup_failure _ _ _ _ _ Hrun) as (_ & _ & Hreports & _).
  exact Hreports.
Defined.

(** ** The report *)

(** X6: what the report of a finalization says depends on the result
    alone: it always marks the Steam login as a success; it marks the
    Game Coordinator connection as failed exactly for [TIMEOUT], the
    result of the profile request's timer, and as a success for every
    other result, [GC_TIMEOUT] included; it marks the profile request as
    a success exactly for [SUCCESS]; and it adds the soft ban verdict
    exactly for [TIMEOUT] and the all-passed verdict exactly for
    [SUCCESS]. *)
Theorem report_by_result (r : string) (w : World) :
  testCompleted w = false ->
  exists w1,
    completeTest r w = Continue tt w1 /\
    exists added,
      trace w1 = added ++ trace w /\
      shows "   - Steam Login: ✅ Success" added = true /\
      shows "   - GC Connection: ❌ Failed/Banned" added =
        String.eqb r "TIMEOUT" /\
      shows "   - GC Connection: ✅ Success" added =
        negb (String.eqb r "TIMEOUT") /\
      shows "   - Profile Request: ✅ Success" added =
        String.eqb r "SUCCESS" /\
      shows "   - Profile Request: ❌ Failed" added =
        negb (String.eqb r "SUCCESS") /\
      shows "🚫 SOFT BAN DETECTED" added = String.eqb r "TIMEOUT" /\
      shows "🎉 ALL TESTS PASSED!" added = String.eqb r "SUCCESS".
Proof.
  intros Hfresh. unfold completeTest, bind, get. rewrite Hfresh. js_run.
  destruct (String.eqb r "SUCCESS") eqn:Hs, (String.eqb r "TIMEOUT") eqn:Ht;
    js_run.
  1: { apply String.eqb_eq in Hs, Ht. subst r. discriminate Ht. }
  all: destruct (steam_logOff (env w)); js_run.
  all: eexists; split; [reflexivity|].
  all: split_trace.
  all: repeat split.
Qed.

Lemma report_by_result_witness :
  testCompleted probing = false /\
  exists w1,
    completeTest "GC_TIMEOUT" probing = Continue tt w1 /\
    exists added,
      trace w1 = added ++ trace probing /\
      shows "   - GC Connection: ✅ Success" added = true /\
      shows "🚫 SOFT BAN DETECTED" added = false.
Proof.
  split; [reflexivity|].
  destruct (report_by_result "GC_TIMEOUT" probing eq_refl)
    as (w1 & Hrun & added & Htrace & _ & _ & Hgc & _ & _ & Hban & _).
  exists w1. split; [exact Hrun|]. exists added.
  split; [exact Htrace|]. split; [exact Hgc|exact Hban].
Defined.

(** ** Events after the finalization *)

(** X7: the disconnects that follow the logoff do not change how the
    run ends.  After a finalization with any result, a Steam disconnect
    or a Game Coordinator disconnect only prints its line: the process
    goes on, no second report is printed, and the exit timer, delivered
    a second after the finalization, ends the process with code 0 for
    [SUCCESS] and 1 otherwise. *)
Theorem disconnect_after_finalization (w : World) (r : string) (ev : Event)
  (t1 t2 : Z) :
  testCompleted w = false ->
  (exists eresult msg, ev = Disconnected eresult msg) \/
  (exists reason, ev = DisconnectedFromGC reason) ->
  now w + 1000 <= t2 ->
  exists w1 w2 w3 line,
    completeTest r w = Continue tt w1 /\
    dispatch t1 ev (Continue tt w1) = Continue tt w2 /\
    trace w2 = Log line :: trace w1 /\
    timers w2 = timers w1 /\
    testCompleted w2 = true /\
    dispatch t2 (TimerDue (next_timer w)) (Continue tt w2) =
      Halt (if String.eqb r "SUCCESS" then 0 else 1) w3.
Proof.
  intros Hfresh Hev Hlate.
  destruct (completeTest_fresh r w Hfresh) as (w1 & Hrun & Hfin).
  pose proof (fin_flag _ _ _ Hfin) as Hdone.
  assert (Hexit : timers w1 !! next_timer w =
                    Some {| deadline := now w + 1000; callback := ExitCb r |})
    by (rewrite (fin_timers _ _ _ Hfin); apply lookup_insert_eq).
  pose proof (fin_now _ _ _ Hfin) as Hnow.
  assert (Hfire : forall w2,
            timers w2 = timers w1 -> now w <= now w2 ->
            exists w3,
              dispatch t2 (TimerDue (next_timer w)) (Continue tt w2) =
                Halt (if String.eqb r "SUCCESS" then 0 else 1) w3).
  { intros w2 Htimers Hclock. unfold dispatch. cbn [handle].
    unfold fire, bind, get, modify. cbn [timers now with_now].
    rewrite Htimers, Hexit. cbn [deadline callback run_callback].
    destruct (Z.leb_spec (now w + 1000) (Z.max (now w2) t2)) as [_|Hlt]; [|lia].
    eexists. reflexivity. }
  assert (Hquiet : forall line,
            exists w3,
              dispatch t2 (TimerDue (next_timer w))
                (Continue tt (with_trace (Log line :: trace w1)
                                (with_now (Z.max (now w1) t1) w1))) =
                Halt (if String.eqb r "SUCCESS" then 0 else 1) w3).
  { intros line. apply Hfire; [reflexivity|].
    cbn [now with_trace with_now]. lia. }
  exists w1.
  destruct Hev as [(eresult & msg & ->)|(reason & ->)]; unfold dispatch at 1;
    cbn [handle].
  - unfold on_disconnected, bind, get, console_log, emit, modify.
    cbn [testCompleted with_trace with_now]. rewrite Hdone. cbn [negb ret].
    destruct (Hquiet ("⚠️ Steam Disconnected: " +:+ pretty eresult +:+ " - "
                      +:+ msg)) as [w3 Hw3].
    eexists; exists w3; eexists.
    split; [exact Hrun|]. split; [reflexivity|]. split; [reflexivity|].
    split; [reflexivity|]. split; [exact Hdone|exact Hw3].
  - unfold on_disconnectedFromGC, bind, get, console_log, emit, modify.
    cbn [testCompleted with_trace with_now]. rewrite Hdone. cbn [negb ret].
    destruct (Hquiet ("❌ GC Disconnected: " +:+ pretty reason)) as [w3 Hw3].
    eexists; exists w3; eexists.
    split; [exact Hrun|]. split; [reflexivity|]. split; [reflexivity|].
    split; [reflexivity|]. split; [exact Hdone|exact Hw3].
Qed.

Lemma disconnect_after_finalization_witness :
  testCompleted probing = false /\
  now probing + 1000 <= 1400 /\
  exists w1 w2 w3,
    completeTest "SUCCESS" probing = Continue tt w1 /\
    dispatch 360 (Disconnected 3 "Logged off") (Continue tt w1) =
      Continue tt w2 /\
    dispatch 1400 (TimerDue (next_timer probing)) (Continue tt w2) =
      Halt 0 w3.
Proof.
  split; [reflexivity|]. split; [vm_compute; discriminate|].
  destruct (disconnect_after_finalization probing "SUCCESS"
              (Disconnected 3 "Logged off") 360 1400)
    as (w1 & w2 & w3 & line & Hrun & Hdisc & _ & _ & _ & Hexit).
  - reflexivity.
  - left. exists 3, "Logged off". reflexivity.
  - vm_compute; discriminate.
  - exists w1, w2, w3. split; [exact Hrun|]. split; [exact Hdisc|exact Hexit].
Defined.

(** X8: the ['error'] handler does not look at [testCompleted].  A
    Steam error delivered after the finalization and before the exit
    timer ends the process at once with code 1, whatever the result of
    the run was: also after a report with the result [SUCCESS], whose
    exit timer would have given code 0. *)
Theorem steam_error_after_finalization (w : World) (r : string) (t : Z)
  (message : string) (eresult : Z) :
  testCompleted w = false ->
  exists w1 w2,
    completeTest r w = Continue tt w1 /\
    timers w1 !! next_timer w =
      Some {| deadline := now w + 1000; callback := ExitCb r |} /\
    dispatch t (SteamError message eresult) (Continue tt w1) = Halt 1 w2 /\
    testCompleted w2 = true /\
    In (Log ("   - Result: " +:+ r)) (trace w2).
Proof.
  intros Hfresh.
  destruct (completeTest_fresh r w Hfresh) as (w1 & Hrun & Hfin).
  destruct (fin_trace _ _ _ Hfin) as (added & Htrace & _ & _ & Hres & _).
  exists w1. eexists. split; [exact Hrun|]. split.
  { rewrite (fin_timers _ _ _ Hfin). apply lookup_insert_eq. }
  unfold dispatch. cbn [handle]. unfold on_error. js_run.
  split; [reflexivity|]. split; [apply Hfin|].
  cbn [trace with_trace]. do 4 right. rewrite Htrace.
  apply in_or_app. now left.
Qed.

Lemma steam_error_after_finalization_witness :
  testCompleted probing = false /\
  exists w1 w2,
    completeTest "SUCCESS" probing = Continue tt w1 /\
    dispatch 700 (SteamError "LoggedInElsewhere" 6) (Continue tt w1) =
      Halt 1 w2 /\
    In (Log "   - Result: SUCCESS") (trace w2).
Proof.
  split; [reflexivity|].
  destruct (steam_error_after_finalization probing "SUCCESS" 700
              "LoggedInElsewhere" 6 eq_refl)
    as (w1 & w2 & Hrun & _ & Herr & _ & Hres).
  exists w1, w2. split; [exact Hrun|]. split; [exact Herr|exact Hres].
Defined.

(** X9: a profile answer that arrives after the run was finalized is
    printed, and its timer is cleared, but it changes nothing else: the
    run stays finalized with the report it has, no timer is armed, and
    the timers other than the request's own are as before, the exit
    timer among them. *)
Theorem late_profile_response (w : World) (t : Z) (rq : nat) (start : Z)
  (profile : option Profile) :
  testCompleted w = true ->
  requests w !! rq = Some start ->
  exists w1 lines,
    dispatch t (ProfileResponse rq profile) (Continue tt w) = Continue tt w1 /\
    trace w1 = lines ++ ClearTimeout rq :: trace w /\
    forallb (fun x => negb (is_banner x)) lines = true /\
    reports w1 = reports w /\
    testCompleted w1 = true /\
    timers w1 = delete rq (timers w) /\
    next_timer w1 = next_timer w /\
    requests w1 = delete rq (requests w).
Proof.
  intros Hdone Hpending. unfold dispatch. cbn [handle].
  unfold respond, bind, get, modify. cbn [requests with_now]. rewrite Hpending.
  match goal with
  | |- context [profile_callback rq start profile ?x] => set (w0 := x)
  end.
  destruct (profile_callback_run rq start profile w0) as (lines & Hlines & ->).
  rewrite completeTest_done by exact Hdone.
  eexists; exists lines. split; [reflexivity|]. split; [reflexivity|].
  split; [exact Hlines|]. split; [|now repeat split].
  unfold reports. cbn [trace with_trace].
  now rewrite (reports_app lines (ClearTimeout rq :: trace w0) Hlines).
Qed.

Lemma late_profile_response_witness :
  exists w0 w1,
    completeTest "INTERRUPTED" probing = Continue tt w0 /\
    testCompleted w0 = true /\
    requests w0 !! 2%nat = Some 350 /\
    dispatch 500 (ProfileResponse 2 (Some sample_profile)) (Continue tt w0) =
      Continue tt w1 /\
    reports w1 = reports w0.
Proof.
  destruct (completeTest_fresh "INTERRUPTED" probing eq_refl)
    as (w0 & Hrun & Hfin).
  assert (Hpending : requests w0 !! 2%nat = Some 350)
    by (rewrite (fin_requests _ _ _ Hfin); reflexivity).
  destruct (late_profile_response w0 500 2 350 (Some sample_profile)
              (fin_flag _ _ _ Hfin) Hpending)
    as (w1 & lines & Hlate & _ & _ & Hreports & _).
  exists w0, w1. split; [exact Hrun|]. split; [apply Hfin|].
  split; [exact Hpending|]. split; [exact Hlate|exact Hreports].
Defined.

(** ** The 2 minute timer and the signals *)

(** X10: the callback of the 2 minute timer asks only whether the run is
    finalized and whether [gcConnectStartTime] is set, not whether the
    Game Coordinator has connected.  Due in a run that is not finalized
    and has logged on, it prints the connection timeout and finalizes
    the run with the result [GC_TIMEOUT], also while a profile request
    is pending, which it leaves pending; the exit timer holds that
    result. *)
Theorem gc_timeout_finalizes (w : World) (t : Z) (id : nat) (d s : Z) :
  testCompleted w = false ->
  gcConnectStartTime w = Some s ->
  s <> 0 ->
  timers w !! id = Some {| deadline := d; callback := GcTimeoutCb |} ->
  d <= Z.max (now w) t ->
  exists w1,
    dispatch t (TimerDue id) (Continue tt w) = Continue tt w1 /\
    testCompleted w1 = true /\
    reports w1 = S (reports w) /\
    In (Log "❌ GC Connection Timeout (2 minutes)") (trace w1) /\
    In (Log "   - Result: GC_TIMEOUT") (trace w1) /\
    timers w1 !! next_timer w =
      Some {| deadline := Z.max (now w) t + 1000;
              callback := ExitCb "GC_TIMEOUT" |} /\
    requests w1 = requests w.
Proof.
  intros Hfresh Hstarted Hs Harmed Hdue. unfold dispatch. cbn [handle].
  unfold fire, bind, get, modify. cbn [timers now with_now].
  rewrite Harmed. cbn [deadline callback run_callback].
  apply Z.leb_le in Hdue. rewrite Hdue.
  unfold gc_timeout_cb, bind, get.
  cbn [testCompleted gcConnectStartTime disarm with_timers with_now].
  rewrite Hfresh, Hstarted. cbn [negb andb time_truthy].
  destruct (Z.eqb_spec s 0) as [|_]; [contradiction|]. cbn [negb].
  unfold console_log, emit, modify.
  match goal with
  | |- context [completeTest _ ?x] => set (wm := x)
  end.
  destruct (completeTest_fresh "GC_TIMEOUT" wm Hfresh) as (w1 & Hrun & Hfin).
  destruct (fin_trace _ _ _ Hfin) as (added & Htrace & _ & _ & Hres & _).
  exists w1. split; [exact Hrun|]. split; [apply Hfin|].
  split; [now rewrite (fin_reports _ _ _ Hfin)|]. repeat split.
  - rewrite Htrace. apply in_or_app. right. cbn [wm trace with_trace In].
    tauto.
  - rewrite Htrace. apply in_or_app. now left.
  - rewrite (fin_timers _ _ _ Hfin). apply lookup_insert_eq.
  - now rewrite (fin_requests _ _ _ Hfin).
Qed.

Lemma gc_timeout_finalizes_witness :
  testCompleted probing = false /\
  gcConnectStartTime probing = Some 50 /\
  requests probing !! 2%nat = Some 350 /\
  exists w1,
    dispatch 120000 (TimerDue 1) (Continue tt probing) = Continue tt w1 /\
    In (Log "   - Result: GC_TIMEOUT") (trace w1) /\
    requests w1 !! 2%nat = Some 350.
Proof.
  split; [reflexivity|]. split; [reflexivity|]. split; [reflexivity|].
  destruct (gc_timeout_finalizes probing 120000 1 120000 50)
    as (w1 & Hrun & _ & _ & _ & Hres & _ & Hrequests).
  - reflexivity.
  - reflexivity.
  - discriminate.
  - reflexivity.
  - vm_compute; discriminate.
  - exists w1. split; [exact Hrun|]. split; [exact Hres|].
    rewrite Hrequests. reflexivity.
Defined.

(** X11: an interrupt or a termination signal in a run that is not
    finalized does not end the process at once: its handler finalizes
    the run with the result [INTERRUPTED] or [TERMINATED], and the
    process exits with code 1 through the exit timer a second later.  A
    further signal in that second only prints its line. *)
Theorem signal_finalizes (w : World) (t : Z) (ev : Event) (r : string) :
  testCompleted w = false ->
  (ev = SIGINT /\ r = "INTERRUPTED") \/ (ev = SIGTERM /\ r = "TERMINATED") ->
  exists w1,
    dispatch t ev (Continue tt w) = Continue tt w1 /\
    testCompleted w1 = true /\
    reports w1 = S (reports w) /\
    In (Log ("   - Result: " +:+ r)) (trace w1) /\
    timers w1 !! next_timer w =
      Some {| deadline := Z.max (now w) t + 1000; callback := ExitCb r |} /\
    (forall t', Z.max (now w) t + 1000 <= t' ->
       exists w2,
         dispatch t' (TimerDue (next_timer w)) (Continue tt w1) = Halt 1 w2) /\
    (forall t' ev', ev' = SIGINT \/ ev' = SIGTERM ->
       exists w2 line,
         dispatch t' ev' (Continue tt w1) = Continue tt w2 /\
         trace w2 = Log line :: trace w1 /\
         timers w2 = timers w1 /\
         testCompleted w2 = true).
Proof.
  intros Hfresh Hev. unfold dispatch at 1.
  set (w0 := with_now (Z.max (now w) t) w).
  assert (Hgate : forall line,
            exists w1,
              completeTest r (with_trace (Log line :: trace w0) w0) =
                Continue tt w1 /\
              finalized_by r (with_trace (Log line :: trace w0) w0) w1).
  { intros line. now apply completeTest_fresh. }
  assert (Hgoal : forall line w1,
            completeTest r (with_trace (Log line :: trace w0) w0) =
              Continue tt w1 ->
            finalized_by r (with_trace (Log line :: trace w0) w0) w1 ->
            String.eqb line completed_banner = false ->
            r <> "SUCCESS" ->
            testCompleted w1 = true /\
            reports w1 = S (reports w) /\
            In (Log ("   - Result: " +:+ r)) (trace w1) /\
            timers w1 !! next_timer w =
              Some {| deadline := Z.max (now w) t + 1000;
                      callback := ExitCb r |} /\
            (forall t', Z.max (now w) t + 1000 <= t' ->
               exists w2,
                 dispatch t' (TimerDue (next_timer w)) (Continue tt w1) =
                   Halt 1 w2) /\
            (forall t' ev', ev' = SIGINT \/ ev' = SIGTERM ->
               exists w2 line',
                 dispatch t' ev' (Continue tt w1) = Continue tt w2 /\
                 trace w2 = Log line' :: trace w1 /\
                 timers w2 = timers w1 /\
                 testCompleted w2 = true)).
  { intros line w1 Hrun Hfin Hline Hr.
    destruct (fin_trace _ _ _ Hfin) as (added & Htrace & _ & _ & Hres & _).
    assert (Hexit : timers w1 !! next_timer w =
                      Some {| deadline := Z.max (now w) t + 1000;
                              callback := ExitCb r |})
      by (rewrite (fin_timers _ _ _ Hfin); apply lookup_insert_eq).
    split; [apply Hfin|]. split.
    { rewrite (fin_reports _ _ _ Hfin). unfold reports.
      cbn [w0 trace with_trace with_now List.filter is_banner].
      now rewrite Hline. }
    split; [rewrite Htrace; apply in_or_app; now left|].
    split; [exact Hexit|]. split.
    - intros t' Hlate. unfold dispatch. cbn [handle].
      unfold fire, bind, get, modify. cbn [timers now with_now].
      rewrite Hexit. cbn [deadline callback run_callback].
      rewrite (fin_now _ _ _ Hfin). cbn [w0 now with_trace with_now].
      destruct (Z.leb_spec (Z.max (now w) t + 1000)
                  (Z.max (Z.max (now w) t) t')) as [_|Hlt]; [|lia].
      unfold exit_cb, process_exit.
      destruct (String.eqb_spec r "SUCCESS") as [|_]; [contradiction|].
      eexists. reflexivity.
    - intros t' ev' [-> | ->]; unfold dispatch; cbn [handle];
        [unfold on_SIGINT|unfold on_SIGTERM];
        unfold bind, console_log, emit, modify;
        (rewrite completeTest_done by apply Hfin);
        eexists; eexists; (split; [reflexivity|]);
        (split; [reflexivity|]); (split; [reflexivity|]); apply Hfin. }
  destruct Hev as [[-> ->]|[-> ->]]; cbn [handle];
    [unfold on_SIGINT|unfold on_SIGTERM];
    unfold bind, console_log, emit, modify; fold w0.
  - destruct (Hgate (nl +:+ "🛑 Test interrupted by user"))
      as (w1 & Hrun & Hfin).
    exists w1. split; [exact Hrun|].
    apply (Hgoal _ w1 Hrun Hfin); [reflexivity|discriminate].
  - destruct (Hgate (nl +:+ "🛑 Test terminated")) as (w1 & Hrun & Hfin).
    exists w1. split; [exact Hrun|].
    apply (Hgoal _ w1 Hrun Hfin); [reflexivity|discriminate].
Qed.

Lemma signal_finalizes_witness :
  testCompleted probing = false /\
  exists w1 w2,
    dispatch 400 SIGINT (Continue tt probing) = Continue tt w1 /\
    In (Log "   - Result: INTERRUPTED") (trace w1) /\
    dispatch 1400 (TimerDue (next_timer probing)) (Continue tt w1) =
      Halt 1 w2.
Proof.
  split; [reflexivity|].
  destruct (signal_finalizes probing 400 SIGINT "INTERRUPTED")
    as (w1 & Hrun & _ & _ & Hres & _ & Hexit & _).
  - reflexivity.
  - now left.
  - destruct (Hexit 1400) as [w2 Hw2]; [vm_compute; discriminate|].
    exists w1, w2. split; [exact Hrun|]. split; [exact Hres|exact Hw2].
Defined.

(** X12: the ['loggedOn'] handler only starts the clock of the Game
    Coordinator connection.  Whenever it is delivered it returns, sets
    [gcConnectStartTime] to the time of the event, and neither arms nor
    cancels a timer nor finalizes the run; its calls to the client are
    the persona state and then [gamesPlayed([730])]. *)
Theorem loggedOn_arms_no_timer (w : World) (t : Z) (steamID64 : string)
  (accountName : option string) :
  exists w1 added,
    dispatch t (LoggedOn steamID64 accountName) (Continue tt w) =
      Continue tt w1 /\
    gcConnectStartTime w1 = Some (Z.max (now w) t) /\
    timers w1 = timers w /\
    next_timer w1 = next_timer w /\
    testCompleted w1 = testCompleted w /\
    reports w1 = reports w /\
    trace w1 = added ++ trace w /\
    List.filter is_client added =
      [Client (GamesPlayed [730]); Client SetPersonaOnline].
Proof.
  unfold dispatch. cbn [handle]. unfold on_loggedOn. js_run.
  eexists. eexists [_; _; _; _; _; _; _].
  split; [reflexivity|]. repeat split.
Qed.

(** X13: a login that takes 2 minutes or more leaves the connection to
    the Game Coordinator without a deadline of its own.  In a run that
    started at [t0], the 2 minute timer delivered at [t0 + 120000] or
    later, before the login, finds [gcConnectStartTime] unset and is
    used up without effect; after the ['loggedOn'] that follows, the
    connection attempt has started and the only timer armed is the
    5 minute timer. *)
Theorem slow_login_has_no_gc_deadline (e : Env) (t0 : Z) (file : ConfigFile)
  (w : World) (t1 t2 : Z) (steamID64 : string) (accountName : option string) :
  boot e t0 file = Continue tt w ->
  t0 + 120000 <= t1 ->
  t1 <= t2 ->
  exists w2,
    run [(t1, TimerDue 1); (t2, LoggedOn steamID64 accountName)]
      (Continue tt w) = Continue tt w2 /\
    gcConnectStartTime w2 = Some t2 /\
    testCompleted w2 = false /\
    reports w2 = 0%nat /\
    timers w2 !! 0%nat =
      Some {| deadline := t0 + 300000; callback := GlobalTimeoutCb |} /\
    forall id, id <> 0%nat -> timers w2 !! id = None.
Proof.
  intros Hrun Hdue Hlogin.
  destruct (boot_cases e t0 file)
    as [(cfg & code & w' & _ & _ & Hrun' & Hst)
       |[(cfg & message & w' & _ & _ & Hrun' & _)
        |[_ (lines & _ & Hrun')]]];
    rewrite Hrun in Hrun'; try discriminate Hrun'.
  injection Hrun' as <-. destruct Hst.
  cbn [run]. unfold dispatch at 2. cbn [handle].
  unfold fire, bind, get, modify. cbn [timers now with_now].
  rewrite st_timers0, st_now0. unfold startup_timers at 1.
  rewrite lookup_insert_eq. cbn [deadline callback run_callback].
  destruct (Z.leb_spec (t0 + 120000) (Z.max t0 t1)) as [_|Hlt]; [|lia].
  unfold gc_timeout_cb, bind, get.
  cbn [testCompleted gcConnectStartTime disarm with_timers with_now].
  rewrite st_flag0, st_gc0. cbn [negb andb time_truthy ret].
  unfold dispatch. cbn [handle]. unfold on_loggedOn. js_run.
  eexists. split; [reflexivity|].
  unfold reports. js_run.
  split; [f_equal; lia|]. split; [exact st_flag0|]. split.
  { rewrite st_trace0. reflexivity. }
  rewrite st_timers0. unfold startup_timers. split.
  - rewrite lookup_delete_ne by discriminate.
    rewrite lookup_insert_ne by discriminate. apply lookup_insert_eq.
  - intros id Hid. destruct (decide (id = 1%nat)) as [->|Hne].
    + apply lookup_delete_eq.
    + rewrite lookup_delete_ne by congruence.
      rewrite lookup_insert_ne by congruence.
      rewrite lookup_insert_ne by congruence. apply lookup_empty.
Qed.

Lemma slow_login_has_no_gc_deadline_witness :
  boot sample_env 0 (FileParsed (DocObject sample_config)) =
    Continue tt booted /\
  exists w2,
    run [(120000, TimerDue 1);
         (150000, LoggedOn "76561198000000001" (Some "alice"))]
      (Continue tt booted) = Continue tt w2 /\
    gcConnectStartTime w2 = Some 150000 /\
    forall id, id <> 0%nat -> timers w2 !! id = None.
Proof.
  assert (Hrun : boot sample_env 0 (FileParsed (DocObject sample_config)) =
                   Continue tt booted) by (vm_compute; reflexivity).
  split; [exact Hrun|].
  destruct (slow_login_has_no_gc_deadline sample_env 0 _ booted 120000 150000
              "76561198000000001" (Some "alice") Hrun)
    as (w2 & Hw2 & Hgc & _ & _ & _ & Honly).
  - vm_compute; discriminate.
  - vm_compute; discriminate.
  - exists w2. split; [exact Hw2|]. split; [exact Hgc|exact Honly].
Defined.

(** ** What no event changes *)

Lemma settled_refl (w : World) : settled w w.
Proof. split; try reflexivity; [now exists []|auto]. Qed.

Lemma settled_trans (w w1 w2 : World) :
  settled w w1 -> settled w1 w2 -> settled w w2.
Proof.
  intros [] []. split; try congruence.
  - destruct keep_trace0 as [a Ha], keep_trace1 as [b Hb].
    exists (b ++ a). now rewrite Hb, Ha, app_assoc.
  - auto.
  - lia.
Qed.

Section SettleRules.
Context {A B : Type}.

Lemma settles_ret (a : A) : settles (ret a).
Proof. intros w. apply settled_refl. Qed.

Lemma settles_get (f : World -> A) : settles (get f).
Proof. intros w. apply settled_refl. Qed.

Lemma settles_process_exit (code : Z) : settles (@process_exit A code).
Proof. intros w. apply settled_refl. Qed.

Lemma settles_bind (m : M A) (k : A -> M B) :
  settles m -> (forall a, settles (k a)) -> settles (bind m k).
Proof.
  intros Hm Hk w. unfold bind. specialize (Hm w).
  destruct (m w) as [a w1|c w1]; [|exact Hm].
  exact (settled_trans _ _ _ Hm (Hk a w1)).
Qed.
End SettleRules.

Lemma settles_modify (f : World -> World) :
  (forall w, settled w (f w)) -> settles (modify f).
Proof. intros Hf w. apply Hf. Qed.

Lemma settles_emit (e : Effect) : settles (emit e).
Proof. intros w. split; try reflexivity; [now exists [e]|auto]. Qed.

Lemma settles_uncaught {A : Type} (message : string) :
  settles (@uncaught A message).
Proof.
  intros w. split; try reflexivity; [now exists [Uncaught message]|auto].
Qed.

Lemma settles_setTimeout (cb : TimerCb) (delay : Z) :
  settles (setTimeout cb delay).
Proof.
  intros w. split; try reflexivity;
    [now exists [SetTimeout (next_timer w) delay]|auto|cbn; lia].
Qed.

Lemma settles_clearTimeout (id : nat) : settles (clearTimeout id).
Proof. intros w. split; try reflexivity; [now exists [ClearTimeout id]|auto]. Qed.

Lemma settles_completeTest (r : string) : settles (completeTest r).
Proof.
  intros w. destruct (testCompleted w) eqn:Hflag.
  - rewrite completeTest_done by exact Hflag. apply settled_refl.
  - destruct (completeTest_fresh r w Hflag) as (w1 & -> & Hfin).
    cbn [outcome_world]. destruct Hfin. split; try assumption.
    + destruct fin_trace0 as (added & Htrace & _). now exists added.
    + congruence.
    + lia.
Qed.

Ltac settles_step :=
  lazymatch goal with
  | |- settles (bind _ _) => apply settles_bind; [|intros ?]
  | |- settles (completeTest _) => apply settles_completeTest
  | |- settles (process_exit _) => apply settles_process_exit
  | |- settles (uncaught _) => apply settles_uncaught
  | |- settles (ret _) => apply settles_ret
  | |- settles (get _) => apply settles_get
  | |- settles (console_log _) => apply settles_emit
  | |- settles (emit _) => apply settles_emit
  | |- settles (modify _) =>
      apply settles_modify; intros ?;
      split; try reflexivity; [now exists []|auto]
  | |- settles (setTimeout _ _) => apply settles_setTimeout
  | |- settles (clearTimeout _) => apply settles_clearTimeout
  | |- settles (if ?c then _ else _) => destruct c
  | |- settles (match ?x with _ => _ end) => destruct x
  | |- settles (profile_callback _ _ _) => unfold profile_callback
  | |- settles testProfileRequest => unfold testProfileRequest
  | |- settles (run_callback _) => unfold run_callback
  | |- settles global_timeout_cb => unfold global_timeout_cb
  | |- settles gc_timeout_cb => unfold gc_timeout_cb
  | |- settles request_timeout_cb => unfold request_timeout_cb
  | |- settles (exit_cb _) => unfold exit_cb
  end.

Lemma settles_handle (ev : Event) : settles (handle ev).
Proof.
  destruct ev; cbn [handle].
  - unfold on_error. repeat settles_step.
  - unfold on_loggedOn. repeat settles_step.
  - unfold on_disconnected. repeat settles_step.
  - unfold on_connectedToGC. repeat settles_step.
  - unfold on_disconnectedFromGC. repeat settles_step.
  - unfold respond. repeat settles_step.
  - unfold fire. repeat settles_step.
  - unfold on_SIGINT. repeat settles_step.
  - unfold on_SIGTERM. repeat settles_step.
Qed.

(** X14: no event handler reassigns what the script set up at its start.
    Over any sequence of events, from any state of the process, the
    environment, the loaded configuration, [testStartTime] and the
    handle in [testTimeout] stay what they were, nothing already printed
    or done is taken back from the trace, and a run that is finalized
    stays finalized. *)
Theorem events_keep_script_constants (evs : list (Z * Event))
  (p : Outcome unit) :
  settled (outcome_world p) (outcome_world (run evs p)).
Proof.
  revert p. induction evs as [|[t ev] rest IH]; intros p;
    [apply settled_refl|].
  cbn [run]. apply (settled_trans _ (outcome_world (dispatch t ev p)));
    [|apply IH].
  destruct p as [[] w|c w]; cbn [dispatch outcome_world];
    [|apply settled_refl].
  apply (settled_trans _ (with_now (Z.max (now w) t) w)).
  - split; try reflexivity; [now exists []|auto].
  - apply settles_handle.
Qed.

(** ** The connection to the Game Coordinator *)

(** X15: a ['connectedToGC'] starts one profile request when the
    [SteamID] of the configured [test_steam_id] is constructed, and ends
    the process when the constructor throws.  In the first case,
    finalized run or not, the handler returns, arms one new timer due
    30000 ms later under a fresh handle, records the pending request
    under that handle with the time of the event, and asks the client
    for the profile; every timer armed before stays armed, the 2 minute
    timer among them, and the run is neither finalized nor ended.  In
    the second case nothing catches the exception: the process ends
    with code 1, and no timer was armed and no request was sent. *)
Theorem connectedToGC_starts_request (w : World) (t : Z) :
  (new_SteamID (env w) (config w !! "test_steam_id") = Returned tt ->
   exists w1 added,
     dispatch t ConnectedToGC (Continue tt w) = Continue tt w1 /\
     timers w1 =
       <[next_timer w :=
           {| deadline := Z.max (now w) t + 30000;
              callback := RequestTimeoutCb |}]> (timers w) /\
     requests w1 = <[next_timer w := Z.max (now w) t]> (requests w) /\
     next_timer w1 = S (next_timer w) /\
     testCompleted w1 = testCompleted w /\
     reports w1 = reports w /\
     trace w1 = added ++ trace w /\
     List.filter is_client added =
       [Client (RequestPlayersProfile
                  (prop_text (config w !! "test_steam_id")))]) /\
  (forall message,
     new_SteamID (env w) (config w !! "test_steam_id") = Threw message ->
     exists w1 added,
       dispatch t ConnectedToGC (Continue tt w) = Halt 1 w1 /\
       timers w1 = timers w /\
       next_timer w1 = next_timer w /\
       requests w1 = requests w /\
       testCompleted w1 = testCompleted w /\
       reports w1 = reports w /\
       trace w1 = Uncaught message :: added ++ trace w /\
       List.filter is_client added = []).
Proof.
  split.
  - intros Hid. unfold dispatch. cbn [handle].
    unfold on_connectedToGC, testProfileRequest. js_run. rewrite Hid. js_run.
    eexists. eexists [_; _; _; _; _; _].
    split; [reflexivity|]. repeat split.
  - intros message Hid. unfold dispatch. cbn [handle].
    unfold on_connectedToGC, testProfileRequest. js_run. rewrite Hid. js_run.
    eexists. eexists [_; _; _; _].
    split; [reflexivity|]. repeat split.
Qed.

Lemma connectedToGC_starts_request_witness :
  new_SteamID (env late_login) (config late_login !! "test_steam_id") =
    Returned tt /\
  exists w1,
    dispatch 100300 ConnectedToGC (Continue tt late_login) = Continue tt w1 /\
    timers w1 !! next_timer late_login =
      Some {| deadline := 130300; callback := RequestTimeoutCb |}.
Proof.
  split; [reflexivity|].
  destruct (connectedToGC_starts_request late_login 100300) as [Hok _].
  destruct (Hok eq_refl) as (w1 & added & Hrun & Htimers & _).
  exists w1. split; [exact Hrun|]. rewrite Htimers. apply lookup_insert_eq.
Defined.
